(** * AgentGuard EVM: the transaction firewall pipeline

    A shallow embedding of the firewall of [src/firewall]: the spending
    ledger ([limits.ts]), the contract classifier ([allowlist.ts]), the
    pre-flight simulator ([simulator.ts]) and the pipeline that composes
    them ([index.ts]), followed by the properties the specification states
    about them.

    Conventions.
    - A JS [bigint] is a [Z]: arbitrary precision, no wrap-around.
    - A JS [string] is a [string] of bytes; addresses, calldata and RPC
      payloads are ASCII text ([0x] followed by hexadecimal digits).
    - A JS [Set<string>] is a [gset string], an object used as a lookup
      table is a [gmap string string].
    - An optional field ([x?: T]) is an [option T]; JS truthiness of such a
      field is written out ([truthy_string], [truthy_bigint]).
    - The ledger reads the wall clock ([new Date()]): synchronous methods
      take the calendar date they read as an argument, the asynchronous
      pipeline obtains it through an event, like its RPC queries. *)

From Stdlib Require Import ZArith String Ascii List DecimalString Lia.
From stdpp Require Import base gmap sets list strings.
Import ListNotations.

Open Scope string_scope.
Open Scope Z_scope.

(** ** JavaScript primitives used by the source *)

Module Js.

(** [String.prototype.toLowerCase] on ASCII text. *)
Definition lower_ascii (c : ascii) : ascii :=
  let n := nat_of_ascii c in
  if ((65 <=? n)%nat && (n <=? 90)%nat)%bool then ascii_of_nat (n + 32) else c.

Fixpoint toLowerCase (s : string) : string :=
  match s with
  | EmptyString => EmptyString
  | String c s' => String (lower_ascii c) (toLowerCase s')
  end.

(** [s.slice(b, e)] for indices [0 <= b <= e]: the characters at positions
    [b .. e-1] that exist. *)
Definition slice (b e : nat) (s : string) : string :=
  String.substring b (e - b) s.

(** [s.startsWith(p)]. *)
Definition startsWith (p s : string) : bool := String.prefix p s.

(** [s.includes(p)]. *)
Fixpoint includes (p s : string) : bool :=
  match s with
  | EmptyString => String.prefix p EmptyString
  | String _ s' => String.prefix p s || includes p s'
  end.

(** [c.repeat(n)] for a one-character string. *)
Fixpoint repeat (c : ascii) (n : nat) : string :=
  match n with
  | O => EmptyString
  | S n' => String c (repeat c n')
  end.

(** [bigint.prototype.toString()]: decimal digits, a leading [-] when
    negative. *)
Definition bigint_toString (z : Z) : string :=
  NilZero.string_of_int (Z.to_int z).

(** Truthiness of an optional string: [undefined] and the empty string are
    falsy. *)
Definition truthy_string (o : option string) : bool :=
  match o with
  | Some s => negb (String.eqb s "")
  | None => false
  end.

(** Truthiness of an optional bigint: [undefined] and [0n] are falsy. *)
Definition truthy_bigint (o : option Z) : bool :=
  match o with
  | Some z => negb (z =? 0)
  | None => false
  end.

(** A value caught by a [catch] clause: an [Error] with its message, or
    anything else ([null] included), for which [instanceof Error] is
    false. *)
Inductive thrown : Type :=
| ThrownError (message : string)
| ThrownOther.

(** The outcome of awaiting a promise. *)
Inductive outcome (A : Type) : Type :=
| Resolved (a : A)
| Rejected (e : thrown).

Arguments Resolved {A} a.
Arguments Rejected {A} e.

End Js.

(** ** limits.ts: the spending ledger *)

Module SpendingLimits.

Record SpendingLimitConfig : Type := {
  maxDailySpend : Z;
  maxPerTxSpend : Z
}.

Record SpendingCheckResult : Type := {
  allowed : bool;
  reason : option string;
  currentDailySpend : Z;
  remainingDaily : Z
}.

(** The private fields of the class. *)
Record t : Type := {
  dailySpend : Z;
  lastResetDate : string;
  maxDaily : Z;
  maxPerTx : Z
}.

Record Status : Type := {
  status_dailySpend : Z;
  status_dailyLimit : Z;
  status_perTxLimit : Z
}.

Section WithHost.

(** [Number(formatEther(wei)).toFixed(4)]: the rendering of a double by the
    JS engine.  It is the only part of [formatWei] that needs floating
    point, and it is taken from the host. *)
Variable toFixed4 : Z -> string.

(** [formatWei].  [formatEther(wei)] is the exact decimal expansion of
    [wei / 10^18] and [Number] rounds it to the nearest double; rounding is
    monotone and two multiples of [10^-18] around [0.001] are more than one
    unit in the last place apart, so [eth >= 0.001] holds exactly when
    [wei >= 10^15]. *)
Definition formatWei (wei : Z) : string :=
  if 10 ^ 15 <=? wei then toFixed4 wei ++ " ETH"
  else Js.bigint_toString wei ++ " wei".

(** [constructor]; [today] is what [getTodayDate()] returns. *)
Definition constructor (today : string) (config : SpendingLimitConfig) : t :=
  {| dailySpend := 0;
     lastResetDate := today;
     maxDaily := maxDailySpend config;
     maxPerTx := maxPerTxSpend config |}.

Definition maybeResetDaily (today : string) (s : t) : t :=
  if negb (String.eqb today (lastResetDate s)) then
    {| dailySpend := 0;
       lastResetDate := today;
       maxDaily := maxDaily s;
       maxPerTx := maxPerTx s |}
  else s.

Definition check (today : string) (amountWei : Z) (s0 : t)
  : SpendingCheckResult * t :=
  let s := maybeResetDaily today s0 in
  if amountWei >? maxPerTx s then
    ({| allowed := false;
        reason := Some ("Transaction amount " ++ formatWei amountWei
                        ++ " exceeds per-tx limit of " ++ formatWei (maxPerTx s));
        currentDailySpend := dailySpend s;
        remainingDaily :=
          if maxDaily s >? dailySpend s then maxDaily s - dailySpend s else 0 |}, s)
  else
    let projectedDaily := dailySpend s + amountWei in
    if projectedDaily >? maxDaily s then
      ({| allowed := false;
          reason := Some ("Transaction would exceed daily limit. Current: "
                          ++ formatWei (dailySpend s) ++ ", Tx: " ++ formatWei amountWei
                          ++ ", Limit: " ++ formatWei (maxDaily s));
          currentDailySpend := dailySpend s;
          remainingDaily :=
            if maxDaily s >? dailySpend s then maxDaily s - dailySpend s else 0 |}, s)
    else
      ({| allowed := true;
          reason := None;
          currentDailySpend := dailySpend s;
          remainingDaily := maxDaily s - projectedDaily |}, s).

End WithHost.

Definition recordSpend (today : string) (amountWei : Z) (s0 : t) : t :=
  let s := maybeResetDaily today s0 in
  {| dailySpend := dailySpend s + amountWei;
     lastResetDate := lastResetDate s;
     maxDaily := maxDaily s;
     maxPerTx := maxPerTx s |}.

Definition resetDailySpend (today : string) (s : t) : t :=
  {| dailySpend := 0;
     lastResetDate := today;
     maxDaily := maxDaily s;
     maxPerTx := maxPerTx s |}.

Definition getStatus (today : string) (s0 : t) : Status * t :=
  let s := maybeResetDaily today s0 in
  ({| status_dailySpend := dailySpend s;
      status_dailyLimit := maxDaily s;
      status_perTxLimit := maxPerTx s |}, s).

End SpendingLimits.

(** ** allowlist.ts: the contract classifier *)

Module ContractAllowlist.

(** Known malicious contracts (the maintained blocklist). *)
Definition KNOWN_MALICIOUS_CONTRACTS : list string :=
  [ "0x0000000000000000000000000000000000000000" ].

(** Common safe system contracts on Base. *)
Definition SAFE_SYSTEM_CONTRACTS : list string :=
  [ "0x4200000000000000000000000000000000000006";
    "0x833589fCD6eDb6E08f4c7C32D4f71b54bdA02913";
    "0xd9aAEc86B65D86f6A7B5B1b0c42FFA531710b6CA";
    "0x50c5725949A6F0c72E6C4a641F24049A917DB0Cb";
    "0x2Ae3F1Ec7F1F5012CFEab0185bfc7aa3cf0DEc22";
    "0x940181a94A35A4569E4529A3CDfB74e38FD98631" ].

Inductive status_t : Type :=
| allowed_status
| blocked
| not_in_allowlist
| system_safe.

Record ContractCheckResult : Type := {
  allowed : bool;
  reason : option string;
  contractAddress : string;
  status : status_t
}.

Record AllowlistConfig : Type := {
  allowedContracts : option (list string);
  blockedContracts : option (list string);
  config_allowSystemContracts : option bool
}.

(** The private fields of the class; [allowlist = None] is the source's
    [null]: no allow-list, everything but the blocked is allowed. *)
Record t : Type := {
  allowlist : option (gset string);
  blocklist : gset string;
  systemContracts : gset string;
  allowSystemContracts : bool
}.

Definition lowered (addrs : list string) : gset string :=
  list_to_set (map Js.toLowerCase addrs).

Definition constructor (config : AllowlistConfig) : t :=
  {| allowlist :=
       match allowedContracts config with
       | Some addrs => Some (lowered addrs)
       | None => None
       end;
     blocklist :=
       lowered (KNOWN_MALICIOUS_CONTRACTS
                ++ match blockedContracts config with
                   | Some addrs => addrs
                   | None => []
                   end);
     systemContracts := lowered SAFE_SYSTEM_CONTRACTS;
     allowSystemContracts :=
       match config_allowSystemContracts config with
       | Some b => b
       | None => true
       end |}.

Definition check (contractAddress : string) (a : t) : ContractCheckResult :=
  let addrLower := Js.toLowerCase contractAddress in
  if bool_decide (addrLower ∈ blocklist a) then
    {| allowed := false;
       reason := Some ("Contract " ++ contractAddress
                       ++ " is blocked (malicious or user-blocked)");
       contractAddress := contractAddress;
       status := blocked |}
  else if allowSystemContracts a && bool_decide (addrLower ∈ systemContracts a) then
    {| allowed := true;
       reason := None;
       contractAddress := contractAddress;
       status := system_safe |}
  else
    match allowlist a with
    | Some al =>
        if bool_decide (addrLower ∈ al) then
          {| allowed := true;
             reason := None;
             contractAddress := contractAddress;
             status := allowed_status |}
        else
          {| allowed := false;
             reason := Some ("Contract " ++ contractAddress ++ " is not in allowlist");
             contractAddress := contractAddress;
             status := not_in_allowlist |}
    | None =>
        {| allowed := true;
           reason := None;
           contractAddress := contractAddress;
           status := allowed_status |}
    end.

Definition checkAll (contractAddresses : list string) (a : t)
  : list ContractCheckResult :=
  map (fun addr => check addr a) contractAddresses.

Definition addToBlocklist (contractAddress : string) (a : t) : t :=
  {| allowlist := allowlist a;
     blocklist := {[ Js.toLowerCase contractAddress ]} ∪ blocklist a;
     systemContracts := systemContracts a;
     allowSystemContracts := allowSystemContracts a |}.

Definition addToAllowlist (contractAddress : string) (a : t) : bool * t :=
  match allowlist a with
  | None => (false, a)
  | Some al =>
      (true,
       {| allowlist := Some ({[ Js.toLowerCase contractAddress ]} ∪ al);
          blocklist := blocklist a;
          systemContracts := systemContracts a;
          allowSystemContracts := allowSystemContracts a |})
  end.

Inductive mode_t : Type :=
| allowlist_mode
| blocklist_only.

Record Status : Type := {
  mode : mode_t;
  allowlistSize : option nat;
  blocklistSize : nat
}.

Definition getStatus (a : t) : Status :=
  {| mode := match allowlist a with Some _ => allowlist_mode | None => blocklist_only end;
     allowlistSize := match allowlist a with Some al => Some (size al) | None => None end;
     blocklistSize := size (blocklist a) |}.

End ContractAllowlist.

(** ** The chain client and the clock

    The simulator talks to a viem [PublicClient] and sleeps between
    retries; the ledger reads the calendar date.  These are the events of a
    program; what the world answers is left to a handler. *)

Module Host.

(** A viem [TransactionRequest], restricted to the fields the firewall
    reads. *)
Record TransactionRequest : Type := {
  to : option string;
  data : option string;
  value : option Z;
  gas : option Z;
  from : option string
}.

(** The argument of [client.call]. *)
Record CallParameters : Type := {
  call_to : option string;
  call_data : option string;
  call_value : option Z;
  call_gas : option Z;
  call_account : option string
}.

(** The argument of [client.estimateGas]. *)
Record EstimateGasParameters : Type := {
  estimate_to : option string;
  estimate_data : option string;
  estimate_value : option Z;
  estimate_account : option string
}.

(** What [client.call] resolves to. *)
Record CallReturn : Type := {
  return_data : option string
}.

Inductive event : Type -> Type :=
| ClientCall (p : CallParameters) : event (Js.outcome CallReturn)
| ClientEstimateGas (p : EstimateGasParameters) : event (Js.outcome Z)
| ClientGetGasPrice : event (Js.outcome Z)
| Sleep (ms : Z) : event unit
| GetTodayDate : event string.

(** Programs: finite trees of events.  Every loop of the source is bounded,
    so no coinduction is needed. *)
Inductive prog (A : Type) : Type :=
| Ret (a : A)
| Vis {X : Type} (e : event X) (k : X -> prog A).

Arguments Ret {A} a.
Arguments Vis {A X} e k.

Fixpoint bind {A B : Type} (p : prog A) (f : A -> prog B) : prog B :=
  match p with
  | Ret a => f a
  | Vis e k => Vis e (fun x => bind (k x) f)
  end.

Definition trigger {X : Type} (e : event X) : prog X := Vis e Ret.

(** One observed interaction: the event and the world's answer. *)
Inductive observed : Type :=
| Obs {X : Type} (e : event X) (answer : X).

Definition is_rpc (o : observed) : bool :=
  match o with
  | Obs (ClientCall _) _ => true
  | Obs (ClientEstimateGas _) _ => true
  | Obs ClientGetGasPrice _ => true
  | Obs (Sleep _) _ => false
  | Obs GetTodayDate _ => false
  end.

Definition is_call (o : observed) : bool :=
  match o with
  | Obs (ClientCall _) _ => true
  | _ => false
  end.

Definition is_clock (o : observed) : bool :=
  match o with
  | Obs GetTodayDate _ => true
  | _ => false
  end.

(** The RPC queries of a trace, and the number of [client.call]s in it. *)
Definition rpc_calls (tr : list observed) : list observed := List.filter is_rpc tr.
Definition call_count (tr : list observed) : nat := length (List.filter is_call tr).

Section Run.

Context {W : Type}.

(** A world: a state and, for every event, an answer and a next state. *)
Variable handler : forall X : Type, event X -> W -> X * W.

Fixpoint run {A : Type} (p : prog A) (w : W) : A * W * list observed :=
  match p with
  | Ret a => (a, w, [])
  | Vis e k =>
      let '(x, w1) := handler _ e w in
      let '(a, w2, tr) := run (k x) w1 in
      (a, w2, Obs e x :: tr)
  end.

End Run.

End Host.

Notation "x <- p ;; k" := (Host.bind p (fun x => k))
  (at level 100, p at next level, right associativity).

(** ** simulator.ts: the pre-flight simulator *)

Module TransactionSimulator.

Import Host.

Record SimulationResult : Type := {
  success : bool;
  error : option string;
  gasUsed : option Z;
  returnData : option string;
  warnings : list string
}.

Inductive chain_t : Type :=
| base
| mainnet.

(** [maxRetries] is a JS number; the embedding covers its integer values. *)
Record SimulatorConfig : Type := {
  config_rpcUrl : option string;
  config_chain : option chain_t;
  config_maxRetries : option Z
}.

(** The private fields of the class.  The [client] is the handler of the
    events; the endpoint it is created for is kept. *)
Record t : Type := {
  client_rpcUrl : string;
  chain : chain_t;
  maxRetries : Z
}.

Record SpendEstimate : Type := {
  estimatedSpend : Z;
  gasPrice : Z;
  estimate_warnings : list string
}.

Definition constructor (config : SimulatorConfig) : t :=
  let chain := match config_chain config with Some c => c | None => base end in
  {| client_rpcUrl :=
       match config_rpcUrl config with
       | Some url => if String.eqb url "" then
                       match chain with
                       | mainnet => "https://eth.llamarpc.com"
                       | base => "https://mainnet.base.org"
                       end
                     else url
       | None => match chain with
                 | mainnet => "https://eth.llamarpc.com"
                 | base => "https://mainnet.base.org"
                 end
       end;
     chain := chain;
     maxRetries :=
       match config_maxRetries config with
       | Some n => if n =? 0 then 2 else n
       | None => 2
       end |}.

(** [x || d] on an optional bigint. *)
Definition or_default (o : option Z) (d : Z) : Z :=
  match o with
  | Some z => if z =? 0 then d else z
  | None => d
  end.

(** [tx.data && tx.data !== '0x']. *)
Definition has_calldata (tx : TransactionRequest) : bool :=
  match data tx with
  | Some d => negb (String.eqb d "") && negb (String.eqb d "0x")
  | None => false
  end.

(** [!tx.gas && tx.to && tx.from]. *)
Definition wants_gas_estimate (tx : TransactionRequest) : bool :=
  negb (Js.truthy_bigint (gas tx)) && Js.truthy_string (to tx)
  && Js.truthy_string (from tx).

Definition call_parameters (tx : TransactionRequest) : CallParameters :=
  {| call_to := to tx;
     call_data := data tx;
     call_value := value tx;
     call_gas := gas tx;
     call_account := from tx |}.

Definition estimate_parameters (tx : TransactionRequest) : EstimateGasParameters :=
  {| estimate_to := to tx;
     estimate_data := data tx;
     estimate_value := value tx;
     estimate_account := from tx |}.

Definition extractContractAddresses (tx : TransactionRequest) : list string :=
  match to tx with
  | Some addr => if negb (String.eqb addr "") then [addr] else []
  | None => []
  end.

Definition HIGH_RISK_SELECTORS : list string :=
  [ "0x095ea7b3"; "0xa22cb465"; "0x2e1a7d4d"; "0x3ccfd60b" ].

Definition isHighRiskTransaction (data : string) : bool :=
  let selector := Js.toLowerCase (Js.slice 0 10 data) in
  existsb (String.eqb selector) HIGH_RISK_SELECTORS.

Definition analyzeReturnDataForWarnings (returnData : string) : list string :=
  let warnings : list string := [] in
  if (2 <? String.length returnData)%nat then
    let warnings :=
      if Js.startsWith "0x08c379a0" returnData
      then app warnings ["Transaction includes revert reason - check contract state"]
      else warnings in
    let warnings :=
      if Js.startsWith "0x4e487b71" returnData
      then app warnings ["Transaction would trigger panic (overflow, div by zero, etc.)"]
      else warnings in
    warnings
  else warnings.

(** The body of the [for] loop of [simulateWithRetry], from iteration [i]
    on; [remaining] is the number of iterations left, [maxRetries - i]
    when the loop is entered with [i = 0]. *)
Fixpoint retry_loop {T : Type} (maxRetries : Z) (fn : prog (Js.outcome T))
    (remaining : nat) (i : Z) (lastError : Js.thrown) : prog (Js.outcome T) :=
  match remaining with
  | O => Ret (Js.Rejected lastError)
  | S remaining' =>
      r <- fn ;;
      match r with
      | Js.Resolved v => Ret (Js.Resolved v)
      | Js.Rejected error =>
          let lastError :=
            match error with
            | Js.ThrownError _ => error
            | Js.ThrownOther => Js.ThrownError "Unknown error"
            end in
          if i <? maxRetries - 1 then
            _ <- trigger (Sleep (100 * (i + 1))) ;;
            retry_loop maxRetries fn remaining' (i + 1) lastError
          else retry_loop maxRetries fn remaining' (i + 1) lastError
      end
  end.

(** [lastError] starts as [null], which is not an [Error]. *)
Definition simulateWithRetry {T : Type} (sim : t) (fn : prog (Js.outcome T))
  : prog (Js.outcome T) :=
  retry_loop (maxRetries sim) fn (Z.to_nat (maxRetries sim)) 0 Js.ThrownOther.

Section WithHost.

(** [bigint.prototype.toLocaleString()], which depends on the locale of the
    host. *)
Variable toLocaleString : Z -> string.

(** [simulate].  Inside the [try] block only [simulateWithRetry] can throw
    (the gas estimate has a [catch] of its own), so the [catch] clause sees
    the warning list still empty. *)
Definition simulate (sim : t) (tx : TransactionRequest)
    (_signerAddress : option string) : prog SimulationResult :=
  let warnings : list string := [] in
  r <- simulateWithRetry sim (trigger (ClientCall (call_parameters tx))) ;;
  match r with
  | Js.Resolved simulationResult =>
      let warnings :=
        match return_data simulationResult with
        | Some d => if negb (String.eqb d "")
                    then app warnings (analyzeReturnDataForWarnings d)
                    else warnings
        | None => warnings
        end in
      if wants_gas_estimate tx then
        g <- trigger (ClientEstimateGas (estimate_parameters tx)) ;;
        match g with
        | Js.Resolved gasEstimate =>
            let warnings :=
              if gasEstimate >? 500000
              then app warnings ["High gas usage estimated: "
                                ++ toLocaleString gasEstimate ++ " gas"]
              else warnings in
            Ret {| success := true;
                   error := None;
                   gasUsed := Some gasEstimate;
                   returnData := return_data simulationResult;
                   warnings := warnings |}
        | Js.Rejected _ =>
            let warnings := app warnings ["Could not estimate gas usage"] in
            Ret {| success := true;
                   error := None;
                   gasUsed := None;
                   returnData := return_data simulationResult;
                   warnings := warnings |}
        end
      else
        Ret {| success := true;
               error := None;
               gasUsed := None;
               returnData := return_data simulationResult;
               warnings := warnings |}
  | Js.Rejected error =>
      let errorMessage :=
        match error with
        | Js.ThrownError message => message
        | Js.ThrownOther => "Unknown simulation error"
        end in
      if Js.includes "insufficient funds" (Js.toLowerCase errorMessage) then
        Ret {| success := false;
               error := Some "Transaction would fail: insufficient funds";
               gasUsed := None;
               returnData := None;
               warnings := app warnings ["Check ETH balance and gas requirements"] |}
      else if Js.includes "revert" (Js.toLowerCase errorMessage) then
        Ret {| success := false;
               error := Some "Transaction would revert";
               gasUsed := None;
               returnData := None;
               warnings := app warnings ["Contract execution would fail"] |}
      else
        Ret {| success := false;
               error := Some ("Simulation failed: " ++ errorMessage);
               gasUsed := None;
               returnData := None;
               warnings := warnings |}
  end.

(** [estimateSpend].  Both client queries have a [catch] of their own and
    nothing else in the outer [try] block throws, so its [catch] clause
    (the 0.1 ETH fallback) is never entered. *)
Definition estimateSpend (sim : t) (tx : TransactionRequest)
    (_payerAddress : string) : prog SpendEstimate :=
  let warnings : list string := [] in
  p <- trigger ClientGetGasPrice ;;
  let gasPrice :=
    match p with Js.Resolved g => g | Js.Rejected _ => 1000000000 end in
  let warnings :=
    match p with
    | Js.Resolved _ => warnings
    | Js.Rejected _ => app warnings ["Could not fetch gas price, using default 1 gwei"]
    end in
  e <- (if wants_gas_estimate tx then
          g <- trigger (ClientEstimateGas (estimate_parameters tx)) ;;
          match g with
          | Js.Resolved gasEstimate => Ret (gasEstimate, warnings)
          | Js.Rejected _ =>
              Ret (if has_calldata tx then 100000 else 21000,
                   app warnings ["Could not estimate gas, using default"])
          end
        else Ret (or_default (gas tx) 21000, warnings)) ;;
  let gasEstimate := fst e in
  let warnings := snd e in
  let gasCost := gasPrice * gasEstimate in
  let value := or_default (value tx) 0 in
  let estimatedSpend := value + gasCost in
  let warnings :=
    match data tx with
    | Some d => if negb (String.eqb d "") && isHighRiskTransaction d
                then app warnings ["Transaction contains high-risk function calls"]
                else warnings
    | None => warnings
    end in
  let warnings :=
    if gasEstimate >? 500000
    then app warnings ["High gas estimate: " ++ toLocaleString gasEstimate ++ " gas"]
    else warnings in
  let warnings :=
    if (value =? 0) && has_calldata tx
    then app warnings ["Contract interaction with no ETH value - check token approvals"]
    else warnings in
  Ret {| estimatedSpend := estimatedSpend;
         gasPrice := gasPrice;
         estimate_warnings := warnings |}.

End WithHost.

End TransactionSimulator.

(** ** index.ts: the firewall pipeline *)

Module TransactionFirewall.

Import Host.

Record FirewallConfig : Type := {
  maxDailySpend : Z;
  maxPerTxSpend : Z;
  allowedContracts : option (list string);
  blockedContracts : option (list string);
  config_requireSimulation : option bool;
  rpcUrl : option string;
  chain : option TransactionSimulator.chain_t;
  config_payerAddress : option string
}.

Record FirewallResult : Type := {
  allowed : bool;
  reason : option string;
  warnings : option (list string);
  simulationResult : option TransactionSimulator.SimulationResult;
  contractsChecked : option (list ContractAllowlist.ContractCheckResult);
  estimatedSpend : option Z
}.

Record SpendingStatus : Type := {
  dailySpend : Z;
  dailyLimit : Z;
  perTxLimit : Z;
  remainingDaily : Z
}.

Record FirewallStatus : Type := {
  spending : SpendingStatus;
  contracts : ContractAllowlist.Status;
  status_requireSimulation : bool
}.

(** The private fields of the class. *)
Record t : Type := {
  limits : SpendingLimits.t;
  allowlist : ContractAllowlist.t;
  simulator : TransactionSimulator.t;
  requireSimulation : bool;
  payerAddress : option string
}.

Definition with_limits (fw : t) (l : SpendingLimits.t) : t :=
  {| limits := l;
     allowlist := allowlist fw;
     simulator := simulator fw;
     requireSimulation := requireSimulation fw;
     payerAddress := payerAddress fw |}.

Definition with_allowlist (fw : t) (a : ContractAllowlist.t) : t :=
  {| limits := limits fw;
     allowlist := a;
     simulator := simulator fw;
     requireSimulation := requireSimulation fw;
     payerAddress := payerAddress fw |}.

(** [constructor]; [today] is the date the ledger's constructor reads. *)
Definition constructor (today : string) (config : FirewallConfig) : t :=
  {| limits :=
       SpendingLimits.constructor today
         {| SpendingLimits.maxDailySpend := maxDailySpend config;
            SpendingLimits.maxPerTxSpend := maxPerTxSpend config |};
     allowlist :=
       ContractAllowlist.constructor
         {| ContractAllowlist.allowedContracts := allowedContracts config;
            ContractAllowlist.blockedContracts := blockedContracts config;
            ContractAllowlist.config_allowSystemContracts := None |};
     simulator :=
       TransactionSimulator.constructor
         {| TransactionSimulator.config_rpcUrl := rpcUrl config;
            TransactionSimulator.config_chain := chain config;
            TransactionSimulator.config_maxRetries := None |};
     requireSimulation :=
       match config_requireSimulation config with
       | Some b => b
       | None => true
       end;
     payerAddress := config_payerAddress config |}.

(** Suspicious function selectors.  The table is a JS object literal read
    with [SUSPICIOUS_SELECTORS[selector]]; calldata is typed [0x...], so
    the key never names a property inherited from [Object.prototype]. *)
Definition SUSPICIOUS_SELECTORS : gmap string string :=
  list_to_map
    [ ("0x095ea7b3", "approve - check spender address carefully");
      ("0xa22cb465", "setApprovalForAll - grants full NFT access");
      ("0x42842e0e", "safeTransferFrom (NFT)");
      ("0x23b872dd", "transferFrom - ensure authorized") ].

Definition UNLIMITED_APPROVAL_WARNING : string :=
  "ðŸš¨ UNLIMITED APPROVAL detected - consider using exact amount".

Definition checkCalldata (data : string) : list string :=
  let warnings : list string := [] in
  let selector := Js.toLowerCase (Js.slice 0 10 data) in
  let warnings :=
    match SUSPICIOUS_SELECTORS !! selector with
    | Some description =>
        if negb (String.eqb description "")
        then app warnings ["âš ï¸ " ++ description]
        else warnings
    | None => warnings
    end in
  if String.eqb selector "0x095ea7b3" && (138 <=? String.length data)%nat then
    let amount := Js.slice 74 138 data in
    if String.eqb amount (Js.repeat "f" 64)
    then app warnings [UNLIMITED_APPROVAL_WARNING]
    else warnings
  else warnings.

Section WithHost.

Variable toFixed4 : Z -> string.
Variable toLocaleString : Z -> string.

(** [simulate]: a transaction simulated without the other checks. *)
Definition simulate (fw : t) (tx : TransactionRequest)
  : prog TransactionSimulator.SimulationResult :=
  TransactionSimulator.simulate toLocaleString (simulator fw) tx (payerAddress fw).

(** Steps 3 to 5 of [check]: what follows the [if (this.payerAddress)]
    statement, with the values of the local variables at that point. *)
Definition check_after_spend (fw : t) (tx : TransactionRequest)
    (contractChecks : list ContractAllowlist.ContractCheckResult)
    (estimatedSpend : option Z) (warnings : list string)
  : prog (FirewallResult * t) :=
  let finish simulationResult warnings :=
    let warnings :=
      match data tx with
      | Some d => if negb (String.eqb d "")
                  then app warnings (checkCalldata d)
                  else warnings
      | None => warnings
      end in
    Ret ({| allowed := true;
            reason := None;
            warnings := if (0 <? length warnings)%nat then Some warnings else None;
            simulationResult := simulationResult;
            contractsChecked := Some contractChecks;
            estimatedSpend := estimatedSpend |}, fw) in
  if requireSimulation fw then
    simulationResult <- simulate fw tx ;;
    if negb (TransactionSimulator.success simulationResult) then
      Ret ({| allowed := false;
              reason := Some ("Simulation failed: "
                              ++ match TransactionSimulator.error simulationResult with
                                 | Some e => e
                                 | None => "undefined"
                                 end);
              warnings := Some (app warnings
                                  (TransactionSimulator.warnings simulationResult));
              simulationResult := Some simulationResult;
              contractsChecked := Some contractChecks;
              estimatedSpend := estimatedSpend |}, fw)
    else
      finish (Some simulationResult)
             (app warnings (TransactionSimulator.warnings simulationResult))
  else finish None warnings.

(** [check]: is the transaction allowed through the firewall?  The ledger
    is the only field the method changes. *)
Definition check (fw : t) (tx : TransactionRequest) : prog (FirewallResult * t) :=
  let warnings : list string := [] in
  let contractAddresses := TransactionSimulator.extractContractAddresses tx in
  let contractChecks := ContractAllowlist.checkAll contractAddresses (allowlist fw) in
  match List.find (fun c => negb (ContractAllowlist.allowed c)) contractChecks with
  | Some blockedContract =>
      Ret ({| allowed := false;
              reason := ContractAllowlist.reason blockedContract;
              warnings := Some warnings;
              simulationResult := None;
              contractsChecked := Some contractChecks;
              estimatedSpend := None |}, fw)
  | None =>
      if Js.truthy_string (payerAddress fw) then
        spendEstimate <-
          TransactionSimulator.estimateSpend toLocaleString (simulator fw) tx
            (match payerAddress fw with Some p => p | None => "" end) ;;
        let estimatedSpend := TransactionSimulator.estimatedSpend spendEstimate in
        let warnings :=
          app warnings (TransactionSimulator.estimate_warnings spendEstimate) in
        today <- trigger GetTodayDate ;;
        let limitCheck :=
          fst (SpendingLimits.check toFixed4 today estimatedSpend (limits fw)) in
        let fw :=
          with_limits fw
            (snd (SpendingLimits.check toFixed4 today estimatedSpend (limits fw))) in
        if negb (SpendingLimits.allowed limitCheck) then
          Ret ({| allowed := false;
                  reason := SpendingLimits.reason limitCheck;
                  warnings := Some warnings;
                  simulationResult := None;
                  contractsChecked := Some contractChecks;
                  estimatedSpend := Some estimatedSpend |}, fw)
        else check_after_spend fw tx contractChecks (Some estimatedSpend) warnings
      else
        check_after_spend fw tx contractChecks None
          (app warnings ["No payer address provided - spending limits not enforced"])
  end.

End WithHost.

Definition recordSpend (today : string) (amountWei : Z) (fw : t) : t :=
  with_limits fw (SpendingLimits.recordSpend today amountWei (limits fw)).

Definition resetDailySpend (today : string) (fw : t) : t :=
  with_limits fw (SpendingLimits.resetDailySpend today (limits fw)).

Definition getStatus (today : string) (fw : t) : FirewallStatus * t :=
  let spendStatus := fst (SpendingLimits.getStatus today (limits fw)) in
  let fw := with_limits fw (snd (SpendingLimits.getStatus today (limits fw))) in
  let contractStatus := ContractAllowlist.getStatus (allowlist fw) in
  ({| spending :=
        {| dailySpend := SpendingLimits.status_dailySpend spendStatus;
           dailyLimit := SpendingLimits.status_dailyLimit spendStatus;
           perTxLimit := SpendingLimits.status_perTxLimit spendStatus;
           remainingDaily := SpendingLimits.status_dailyLimit spendStatus
                             - SpendingLimits.status_dailySpend spendStatus |};
      contracts := contractStatus;
      status_requireSimulation := requireSimulation fw |}, fw).

Definition getRemainingDaily (today : string) (fw : t) : Z * t :=
  let status := fst (SpendingLimits.getStatus today (limits fw)) in
  (SpendingLimits.status_dailyLimit status - SpendingLimits.status_dailySpend status,
   with_limits fw (snd (SpendingLimits.getStatus today (limits fw)))).

Definition blockContract (contractAddress : string) (fw : t) : t :=
  with_allowlist fw (ContractAllowlist.addToBlocklist contractAddress (allowlist fw)).

Definition allowContract (contractAddress : string) (fw : t) : bool * t :=
  (fst (ContractAllowlist.addToAllowlist contractAddress (allowlist fw)),
   with_allowlist fw (snd (ContractAllowlist.addToAllowlist contractAddress (allowlist fw)))).

End TransactionFirewall.

(** ** Callers and worlds used by the statements *)

(** A caller that follows the protocol of the ledger: an amount is recorded
    only after [check] approved it.  The two methods read the clock on
    their own, possibly on different days. *)
Module Caller.

Record guarded_call : Type := {
  checked_on : string;
  recorded_on : string;
  amount : Z
}.

Definition check_then_record (toFixed4 : Z -> string)
    (s : SpendingLimits.t) (c : guarded_call) : SpendingLimits.t :=
  let r := fst (SpendingLimits.check toFixed4 (checked_on c) (amount c) s) in
  let s1 := snd (SpendingLimits.check toFixed4 (checked_on c) (amount c) s) in
  if SpendingLimits.allowed r
  then SpendingLimits.recordSpend (recorded_on c) (amount c) s1
  else s1.

(** Unguarded use: every amount is recorded, on the given day. *)
Definition record_all (today : string) (amounts : list Z) (s : SpendingLimits.t)
  : SpendingLimits.t :=
  fold_left (fun s a => SpendingLimits.recordSpend today a s) amounts s.

End Caller.

(** A host for the closed examples. *)
Module ExampleHost.

Definition pad4 (n : Z) : string :=
  let d := Js.bigint_toString n in
  Js.repeat "0" (4 - String.length d) ++ d.

(** [wei / 10^18] with four decimals, rounded half up on integers: what
    [toFixed(4)] prints for the amounts of the examples. *)
Definition toFixed4 (wei : Z) : string :=
  let n := (wei + 5 * 10 ^ 13) / 10 ^ 14 in
  Js.bigint_toString (n / 10000) ++ "." ++ pad4 (n mod 10000).

(** A locale that does not group digits. *)
Definition toLocaleString (n : Z) : string := Js.bigint_toString n.

Definition ETH : Z := 10 ^ 18.

End ExampleHost.

(** Worlds for the closed examples. *)
Module ExampleWorld.

Import Host.

(** A chain that answers every query: calls return no data, a transfer
    costs 21000 gas at 1 gwei; the clock stands at one day. *)
Definition healthy (X : Type) (e : event X) (w : unit) : X * unit :=
  match e in event X return X * unit with
  | ClientCall _ => (Js.Resolved {| return_data := None |}, w)
  | ClientEstimateGas _ => (Js.Resolved 21000, w)
  | ClientGetGasPrice => (Js.Resolved (10 ^ 9), w)
  | Sleep _ => (tt, w)
  | GetTodayDate => ("2026-01-01", w)
  end.

(** A chain whose [call] answers are scripted: each call consumes the next
    outcome of the list, and is refused once the list is used up. *)
Definition scripted (X : Type) (e : event X) (w : list (Js.outcome CallReturn))
  : X * list (Js.outcome CallReturn) :=
  match e in event X return X * list (Js.outcome CallReturn) with
  | ClientCall _ =>
      match w with
      | r :: w' => (r, w')
      | [] => (Js.Rejected (Js.ThrownError "connection refused"), [])
      end
  | ClientEstimateGas _ => (Js.Resolved 21000, w)
  | ClientGetGasPrice => (Js.Resolved (10 ^ 9), w)
  | Sleep _ => (tt, w)
  | GetTodayDate => ("2026-01-01", w)
  end.

Definition payer : string := "0x742d35Cc6634C0532925a3b8D23C5d3ce87CDD4b".
Definition recipient : string := "0x1234567890123456789012345678901234567890".
Definition drainer : string := "0xBaDc0DeBaDc0DeBaDc0DeBaDc0DeBaDc0DeBaDc0".
Definition weth : string := "0x4200000000000000000000000000000000000006".

(** A plain transfer of [amount] wei to [dest]. *)
Definition transfer (dest : string) (amount : Z) : TransactionRequest :=
  {| to := Some dest;
     data := None;
     value := Some amount;
     gas := None;
     from := Some payer |}.

(** The firewall of the end-to-end scenarios: 10 ETH per day, 1 ETH per
    transaction, a payer, one blocked contract. *)
Definition firewall : TransactionFirewall.t :=
  TransactionFirewall.constructor "2026-01-01"
    {| TransactionFirewall.maxDailySpend := 10 * ExampleHost.ETH;
       TransactionFirewall.maxPerTxSpend := 1 * ExampleHost.ETH;
       TransactionFirewall.allowedContracts := None;
       TransactionFirewall.blockedContracts := Some [drainer];
       TransactionFirewall.config_requireSimulation := None;
       TransactionFirewall.rpcUrl := None;
       TransactionFirewall.chain := None;
       TransactionFirewall.config_payerAddress := Some payer |}.

(** A firewall in allow-list mode with an empty allow list, no payer and no
    simulation. *)
Definition strict_config : TransactionFirewall.FirewallConfig :=
  {| TransactionFirewall.maxDailySpend := 10 * ExampleHost.ETH;
     TransactionFirewall.maxPerTxSpend := 1 * ExampleHost.ETH;
     TransactionFirewall.allowedContracts := Some [];
     TransactionFirewall.blockedContracts := None;
     TransactionFirewall.config_requireSimulation := Some false;
     TransactionFirewall.rpcUrl := None;
     TransactionFirewall.chain := None;
     TransactionFirewall.config_payerAddress := None |}.

(** A simulator with the default retry budget of two attempts. *)
Definition simulator : TransactionSimulator.t :=
  TransactionSimulator.constructor
    {| TransactionSimulator.config_rpcUrl := None;
       TransactionSimulator.config_chain := None;
       TransactionSimulator.config_maxRetries := None |}.

Definition insufficient_funds : Js.thrown :=
  Js.ThrownError "insufficient funds for gas * price + value".

Definition reverted : Js.thrown :=
  Js.ThrownError "execution reverted: ERC20: insufficient allowance".

(** [approve(spender, amount)] calldata: selector, spender, amount, as the
    hexadecimal digits given. *)
Definition approve (amount_digits : string) : string :=
  "0x095ea7b3"
  ++ "000000000000000000000000742d35Cc6634C0532925a3b8D23C5d3ce87CDD4b"
  ++ amount_digits.

End ExampleWorld.

(** ** Calldata as bytes

    The source handles calldata as hexadecimal text.  The specification
    speaks of its bytes; this is the decoding that relates the two: after
    [0x], two hexadecimal digits of either case per byte. *)
Module Calldata.

Definition hex_digit (c : ascii) : option N :=
  let n := N_of_ascii c in
  if ((48 <=? n) && (n <=? 57))%N then Some (n - 48)%N
  else if ((97 <=? n) && (n <=? 102))%N then Some (n - 87)%N
  else if ((65 <=? n) && (n <=? 70))%N then Some (n - 55)%N
  else None.

Fixpoint hex_bytes (s : string) : option (list N) :=
  match s with
  | EmptyString => Some []
  | String hi (String lo rest) =>
      match hex_digit hi, hex_digit lo, hex_bytes rest with
      | Some h, Some l, Some bs => Some ((16 * h + l)%N :: bs)
      | _, _, _ => None
      end
  | String _ EmptyString => None
  end.

Definition bytes (data : string) : option (list N) :=
  match data with
  | String "0" (String "x" digits) => hex_bytes digits
  | _ => None
  end.

(** The four-byte selector of ERC-20 [approve(address,uint256)]. *)
Definition APPROVE_SELECTOR : list N := [9; 94; 167; 179]%N.

Definition selector (bs : list N) : list N := firstn 4 bs.

(** The [n]-th 32-byte parameter slot after the selector, counted from 1:
    [None] when the calldata is too short to hold it. *)
Definition slot (n : nat) (bs : list N) : option (list N) :=
  let s := firstn 32 (skipn (4 + 32 * (n - 1)) bs) in
  if (length s =? 32)%nat then Some s else None.

(** An approval whose amount, the second slot, is made of [0xFF] bytes
    only. *)
Definition is_unlimited_approval (data : string) : Prop :=
  exists bs, bytes data = Some bs
             /\ selector bs = APPROVE_SELECTOR
             /\ slot 2 bs = Some (List.repeat 255%N 32).

(** An approval whose amount is zero. *)
Definition is_zero_approval (data : string) : Prop :=
  exists bs, bytes data = Some bs
             /\ selector bs = APPROVE_SELECTOR
             /\ slot 2 bs = Some (List.repeat 0%N 32).

End Calldata.

(** ** The retry policy, as the specification words it *)
Module RetryPolicy.

Import Host.

(** The failures [simulate] recognises by the text of the error. *)
Definition is_insufficient_funds (e : Js.thrown) : bool :=
  match e with
  | Js.ThrownError message => Js.includes "insufficient funds" (Js.toLowerCase message)
  | Js.ThrownOther => false
  end.

Definition is_revert (e : Js.thrown) : bool :=
  match e with
  | Js.ThrownError message => Js.includes "revert" (Js.toLowerCase message)
  | Js.ThrownOther => false
  end.

Definition non_transient (e : Js.thrown) : bool :=
  is_insufficient_funds e || is_revert e.

(** The specification's sentence on a trace: no [call] is attempted after
    an attempt that failed with a non-transient error. *)
Definition non_transient_never_retried (tr : list observed) : Prop :=
  forall pre p e post,
    tr = app pre (Obs (ClientCall p) (Js.Rejected e) :: post) ->
    non_transient e = true ->
    call_count post = 0%nat.

End RetryPolicy.

(** ** Reading traces *)
Module Trace.

Import Host.

(** The delays slept, in order. *)
Definition sleep_of (o : observed) : option Z :=
  match o with
  | Obs (Sleep ms) _ => Some ms
  | _ => None
  end.

Definition sleeps (tr : list observed) : list Z := omap sleep_of tr.

(** The delay the loop of [simulateWithRetry] sleeps after its [j]-th failed
    attempt, counted from zero. *)
Definition backoff (j : nat) : Z := 100 * (Z.of_nat j + 1).

End Trace.

(** A node that cannot be reached. *)
Module OfflineWorld.

Import Host.

(** Every query is refused with the error [e]; the clock still runs. *)
Definition refusing (e : Js.thrown) (X : Type) (ev : event X) (w : unit) : X * unit :=
  match ev in event X return X * unit with
  | ClientCall _ => (Js.Rejected e, w)
  | ClientEstimateGas _ => (Js.Rejected e, w)
  | ClientGetGasPrice => (Js.Rejected e, w)
  | Sleep _ => (tt, w)
  | GetTodayDate => ("2026-01-01", w)
  end.

(** A deployment: a transaction without destination. *)
Definition deployment : TransactionRequest :=
  {| to := None;
     data := Some "0x6080604052";
     value := None;
     gas := None;
     from := Some ExampleWorld.payer |}.

Definition payer_lower : string := "0x742d35cc6634c0532925a3b8d23c5d3ce87cdd4b".

End OfflineWorld.

(** * Properties *)

(** ** Strings *)

Lemma append_cons (c : ascii) (s t : string) : String c s ++ t = String c (s ++ t).
Proof. reflexivity. Qed.

Lemma prefix_empty (s : string) : String.prefix "" s = true.
Proof. destruct s; reflexivity. Qed.

Lemma prefix_app_r (p s t : string) :
  String.prefix p s = true -> String.prefix p (s ++ t) = true.
Proof.
  revert p. induction s as [|c s IH]; intros p H.
  - destruct p; [apply prefix_empty | discriminate H].
  - destruct p as [|d p]; [reflexivity|].
    rewrite append_cons. simpl in *.
    destruct (ascii_dec d c); [apply IH, H | discriminate H].
Qed.

Lemma prefix_refl (p : string) : String.prefix p p = true.
Proof.
  induction p as [|c p IH]; simpl; [reflexivity|].
  destruct (ascii_dec c c); [exact IH | congruence].
Qed.

Lemma includes_here (p s : string) : String.prefix p s = true -> Js.includes p s = true.
Proof.
  destruct s as [|c s]; simpl; intros H; [exact H|].
  rewrite H. reflexivity.
Qed.

Lemma includes_self (p : string) : Js.includes p p = true.
Proof. apply includes_here, prefix_refl. Qed.

Lemma includes_app_l (p a s : string) :
  Js.includes p s = true -> Js.includes p (a ++ s) = true.
Proof.
  intros H. induction a as [|c a IH]; [exact H|].
  rewrite append_cons. simpl. rewrite IH. apply orb_true_r.
Qed.

Lemma includes_app_r (p s b : string) :
  Js.includes p s = true -> Js.includes p (s ++ b) = true.
Proof.
  induction s as [|c s IH]; intros H.
  - simpl in H. destruct p; [|discriminate H].
    destruct b; reflexivity.
  - rewrite append_cons. cbn [Js.includes] in *.
    apply orb_true_iff in H. destruct H as [H | H].
    + pose proof (prefix_app_r p (String c s) b H) as H'.
      rewrite append_cons in H'. rewrite H'. reflexivity.
    + rewrite (IH H). apply orb_true_r.
Qed.

(** ** The spending ledger *)

Section Ledger.

Variable toFixed4 : Z -> string.

Abbreviation formatWei := (SpendingLimits.formatWei toFixed4).
Abbreviation ledger_check := (SpendingLimits.check toFixed4).

Lemma maybeResetDaily_caps (today : string) (s : SpendingLimits.t) :
  SpendingLimits.maxDaily (SpendingLimits.maybeResetDaily today s) = SpendingLimits.maxDaily s
  /\ SpendingLimits.maxPerTx (SpendingLimits.maybeResetDaily today s) = SpendingLimits.maxPerTx s.
Proof.
  unfold SpendingLimits.maybeResetDaily.
  destruct (negb (today =? SpendingLimits.lastResetDate s)%string); split; reflexivity.
Qed.

Lemma maybeResetDaily_spend (today : string) (s : SpendingLimits.t) :
  SpendingLimits.dailySpend (SpendingLimits.maybeResetDaily today s) = 0
  \/ SpendingLimits.dailySpend (SpendingLimits.maybeResetDaily today s)
     = SpendingLimits.dailySpend s.
Proof.
  unfold SpendingLimits.maybeResetDaily.
  destruct (negb (today =? SpendingLimits.lastResetDate s)%string); [left | right];
    reflexivity.
Qed.

Lemma maybeResetDaily_same_day (s : SpendingLimits.t) :
  SpendingLimits.maybeResetDaily (SpendingLimits.lastResetDate s) s = s.
Proof.
  unfold SpendingLimits.maybeResetDaily. rewrite String.eqb_refl. reflexivity.
Qed.

Lemma maybeResetDaily_date (today : string) (s : SpendingLimits.t) :
  SpendingLimits.lastResetDate (SpendingLimits.maybeResetDaily today s) = today.
Proof.
  unfold SpendingLimits.maybeResetDaily.
  destruct (String.eqb_spec today (SpendingLimits.lastResetDate s)); simpl; congruence.
Qed.

(** The three outcomes of [check], on the ledger [s] the reset leaves. *)
Lemma check_state (today : string) (a : Z) (s0 : SpendingLimits.t) :
  snd (ledger_check today a s0) = SpendingLimits.maybeResetDaily today s0.
Proof.
  unfold SpendingLimits.check.
  destruct (_ >? _); [reflexivity|]. destruct (_ >? _); reflexivity.
Qed.

Lemma check_per_tx (today : string) (a : Z) (s0 : SpendingLimits.t) :
  let s := SpendingLimits.maybeResetDaily today s0 in
  a > SpendingLimits.maxPerTx s0 ->
  fst (ledger_check today a s0)
  = {| SpendingLimits.allowed := false;
       SpendingLimits.reason :=
         Some ("Transaction amount " ++ formatWei a ++ " exceeds per-tx limit of "
               ++ formatWei (SpendingLimits.maxPerTx s0));
       SpendingLimits.currentDailySpend := SpendingLimits.dailySpend s;
       SpendingLimits.remainingDaily :=
         if SpendingLimits.maxDaily s0 >? SpendingLimits.dailySpend s
         then SpendingLimits.maxDaily s0 - SpendingLimits.dailySpend s else 0 |}.
Proof.
  intros s Hgt. unfold SpendingLimits.check. fold s.
  destruct (maybeResetDaily_caps today s0) as [Hd Hp]. fold s in Hd, Hp.
  rewrite Hd, Hp.
  destruct (Z.gtb_spec a (SpendingLimits.maxPerTx s0)); [reflexivity | lia].
Qed.

Lemma check_daily (today : string) (a : Z) (s0 : SpendingLimits.t) :
  let s := SpendingLimits.maybeResetDaily today s0 in
  a <= SpendingLimits.maxPerTx s0 ->
  SpendingLimits.dailySpend s + a > SpendingLimits.maxDaily s0 ->
  fst (ledger_check today a s0)
  = {| SpendingLimits.allowed := false;
       SpendingLimits.reason :=
         Some ("Transaction would exceed daily limit. Current: "
               ++ formatWei (SpendingLimits.dailySpend s) ++ ", Tx: " ++ formatWei a
               ++ ", Limit: " ++ formatWei (SpendingLimits.maxDaily s0));
       SpendingLimits.currentDailySpend := SpendingLimits.dailySpend s;
       SpendingLimits.remainingDaily :=
         if SpendingLimits.maxDaily s0 >? SpendingLimits.dailySpend s
         then SpendingLimits.maxDaily s0 - SpendingLimits.dailySpend s else 0 |}.
Proof.
  intros s Hle Hover. unfold SpendingLimits.check. fold s.
  destruct (maybeResetDaily_caps today s0) as [Hd Hp]. fold s in Hd, Hp.
  rewrite Hd, Hp.
  destruct (Z.gtb_spec a (SpendingLimits.maxPerTx s0)); [lia|].
  destruct (Z.gtb_spec (SpendingLimits.dailySpend s + a) (SpendingLimits.maxDaily s0));
    [reflexivity | lia].
Qed.

Lemma check_allowed (today : string) (a : Z) (s0 : SpendingLimits.t) :
  let s := SpendingLimits.maybeResetDaily today s0 in
  a <= SpendingLimits.maxPerTx s0 ->
  SpendingLimits.dailySpend s + a <= SpendingLimits.maxDaily s0 ->
  fst (ledger_check today a s0)
  = {| SpendingLimits.allowed := true;
       SpendingLimits.reason := None;
       SpendingLimits.currentDailySpend := SpendingLimits.dailySpend s;
       SpendingLimits.remainingDaily :=
         SpendingLimits.maxDaily s0 - (SpendingLimits.dailySpend s + a) |}.
Proof.
  intros s Hle Hfit. unfold SpendingLimits.check. fold s.
  destruct (maybeResetDaily_caps today s0) as [Hd Hp]. fold s in Hd, Hp.
  rewrite Hd, Hp.
  destruct (Z.gtb_spec a (SpendingLimits.maxPerTx s0)); [lia|].
  destruct (Z.gtb_spec (SpendingLimits.dailySpend s + a) (SpendingLimits.maxDaily s0));
    [lia | reflexivity].
Qed.

(** C1.  [check(a)] first applies the period-boundary reset; on the ledger
    [s] it leaves, an amount above the per-transaction cap is rejected
    whatever the period spend, with a reason that names the per-tx limit
    and the cap; otherwise an amount that takes the period spend over the
    period cap is rejected with a reason citing the current spend, the
    attempted amount and the cap; otherwise the amount is allowed and the
    remaining headroom is the cap minus the spend with the amount
    applied. *)
Theorem ledger_check_spec (today : string) (a : Z) (s0 : SpendingLimits.t) :
  let s := SpendingLimits.maybeResetDaily today s0 in
  let r := fst (ledger_check today a s0) in
  snd (ledger_check today a s0) = s
  /\ SpendingLimits.currentDailySpend r = SpendingLimits.dailySpend s
  /\ (a > SpendingLimits.maxPerTx s0 ->
      SpendingLimits.allowed r = false
      /\ SpendingLimits.reason r
         = Some ("Transaction amount " ++ formatWei a ++ " exceeds per-tx limit of "
                 ++ formatWei (SpendingLimits.maxPerTx s0))
      /\ (forall m, SpendingLimits.reason r = Some m ->
            Js.includes "per-tx limit" m = true
            /\ Js.includes (formatWei (SpendingLimits.maxPerTx s0)) m = true))
  /\ (a <= SpendingLimits.maxPerTx s0 ->
      SpendingLimits.dailySpend s + a > SpendingLimits.maxDaily s0 ->
      SpendingLimits.allowed r = false
      /\ SpendingLimits.reason r
         = Some ("Transaction would exceed daily limit. Current: "
                 ++ formatWei (SpendingLimits.dailySpend s) ++ ", Tx: " ++ formatWei a
                 ++ ", Limit: " ++ formatWei (SpendingLimits.maxDaily s0))
      /\ (forall m, SpendingLimits.reason r = Some m ->
            Js.includes (formatWei (SpendingLimits.dailySpend s)) m = true
            /\ Js.includes (formatWei a) m = true
            /\ Js.includes (formatWei (SpendingLimits.maxDaily s0)) m = true))
  /\ (a <= SpendingLimits.maxPerTx s0 ->
      SpendingLimits.dailySpend s + a <= SpendingLimits.maxDaily s0 ->
      SpendingLimits.allowed r = true
      /\ SpendingLimits.reason r = None
      /\ SpendingLimits.remainingDaily r
         = SpendingLimits.maxDaily s0 - (SpendingLimits.dailySpend s + a)).
Proof.
  intros s r. subst r.
  split; [apply check_state|].
  split.
  { destruct (Z_le_gt_dec a (SpendingLimits.maxPerTx s0)) as [Hle | Hgt];
      [destruct (Z_le_gt_dec (SpendingLimits.dailySpend s + a)
                   (SpendingLimits.maxDaily s0)) as [Hfit | Hover]|].
    - rewrite (check_allowed today a s0 Hle Hfit). reflexivity.
    - rewrite (check_daily today a s0 Hle Hover). reflexivity.
    - rewrite (check_per_tx today a s0 Hgt). reflexivity. }
  split_and!.
  - intros Hgt. rewrite (check_per_tx today a s0 Hgt).
    cbn [SpendingLimits.allowed SpendingLimits.reason].
    split_and!; [reflexivity | reflexivity |].
    intros m [= <-]. split.
    + do 2 apply includes_app_l. apply includes_app_r. reflexivity.
    + do 3 apply includes_app_l. apply includes_self.
  - intros Hle Hover. rewrite (check_daily today a s0 Hle Hover).
    cbn [SpendingLimits.allowed SpendingLimits.reason].
    split_and!; [reflexivity | reflexivity |].
    intros m [= <-]. split_and!.
    + apply includes_app_l, includes_app_r, includes_self.
    + do 3 apply includes_app_l. apply includes_app_r, includes_self.
    + do 5 apply includes_app_l. apply includes_self.
  - intros Hle Hfit. rewrite (check_allowed today a s0 Hle Hfit).
    split_and!; reflexivity.
Qed.

Lemma check_then_record_caps (s : SpendingLimits.t) (c : Caller.guarded_call) :
  SpendingLimits.maxDaily (Caller.check_then_record toFixed4 s c)
  = SpendingLimits.maxDaily s.
Proof.
  unfold Caller.check_then_record. rewrite check_state.
  destruct (SpendingLimits.allowed _).
  - unfold SpendingLimits.recordSpend. cbn [SpendingLimits.maxDaily].
    rewrite !(proj1 (maybeResetDaily_caps _ _)). reflexivity.
  - apply maybeResetDaily_caps.
Qed.

(** One guarded call keeps the period spend between zero and the cap. *)
Lemma check_then_record_within_cap (s : SpendingLimits.t) (c : Caller.guarded_call) :
  0 <= Caller.amount c ->
  0 <= SpendingLimits.dailySpend s <= SpendingLimits.maxDaily s ->
  0 <= SpendingLimits.dailySpend (Caller.check_then_record toFixed4 s c)
    <= SpendingLimits.maxDaily s.
Proof.
  intros Ha Hinv. unfold Caller.check_then_record. rewrite check_state.
  pose proof (check_per_tx (Caller.checked_on c) (Caller.amount c) s) as Htx.
  pose proof (check_daily (Caller.checked_on c) (Caller.amount c) s) as Hday.
  pose proof (check_allowed (Caller.checked_on c) (Caller.amount c) s) as Hok.
  cbv zeta in Htx, Hday, Hok.
  set (s1 := SpendingLimits.maybeResetDaily (Caller.checked_on c) s) in *.
  assert (0 <= SpendingLimits.dailySpend s1 <= SpendingLimits.maxDaily s) as H1.
  { destruct (maybeResetDaily_spend (Caller.checked_on c) s) as [E | E];
      fold s1 in E; rewrite E; lia. }
  destruct (Z_le_gt_dec (Caller.amount c) (SpendingLimits.maxPerTx s)) as [Hle | Hgt].
  - destruct (Z_le_gt_dec (SpendingLimits.dailySpend s1 + Caller.amount c)
                (SpendingLimits.maxDaily s)) as [Hfit | Hover].
    + rewrite (Hok Hle Hfit). cbn [SpendingLimits.allowed].
      unfold SpendingLimits.recordSpend. cbn [SpendingLimits.dailySpend].
      destruct (maybeResetDaily_spend (Caller.recorded_on c) s1) as [E | E];
        rewrite E; lia.
    + rewrite (Hday Hle Hover). exact H1.
  - rewrite (Htx Hgt). exact H1.
Qed.

(** C2, as the code has it.  When every [recordSpend(a)] follows a [check(a)]
    that allowed it, with amounts that are not negative, the period spend
    never exceeds the period cap (and never falls below zero), after every
    call of every such sequence.  [recordSpend] itself never rejects. *)
Theorem guarded_recordSpend_within_cap (today : string)
    (config : SpendingLimits.SpendingLimitConfig) (calls : list Caller.guarded_call) :
  0 <= SpendingLimits.maxDailySpend config ->
  Forall (fun c => 0 <= Caller.amount c) calls ->
  let s := fold_left (Caller.check_then_record toFixed4) calls
             (SpendingLimits.constructor today config) in
  0 <= SpendingLimits.dailySpend s <= SpendingLimits.maxDaily s.
Proof.
  intros Hcap Hcalls.
  assert (forall s0,
             0 <= SpendingLimits.dailySpend s0 <= SpendingLimits.maxDaily s0 ->
             let s := fold_left (Caller.check_then_record toFixed4) calls s0 in
             0 <= SpendingLimits.dailySpend s <= SpendingLimits.maxDaily s) as Hgen.
  { induction Hcalls as [|c calls Hc _ IH]; intros s0 Hinv; [exact Hinv|].
    cbn [fold_left]. apply IH.
    rewrite check_then_record_caps.
    apply check_then_record_within_cap; assumption. }
  apply Hgen. cbn. lia.
Qed.

End Ledger.

(** ** The contract classifier *)

Section Classifier.

Import ContractAllowlist.

Lemma system_not_honoured (a : ContractAllowlist.t) (k : string) :
  allowSystemContracts a = false \/ k ∉ systemContracts a ->
  allowSystemContracts a && bool_decide (k ∈ systemContracts a) = false.
Proof.
  intros [-> | Hn]; [reflexivity|].
  rewrite (bool_decide_eq_false_2 _ Hn). apply andb_false_r.
Qed.

(** C3.  [check] normalises the address to lower case and then follows a
    fixed precedence: a member of the block set is [blocked] and not allowed
    whatever the other lists say; otherwise a member of the system-safe set
    is [system_safe] when system contracts are honoured; otherwise, in
    allow-list mode, a member of the allow set is [allowed] and any other
    address is [not_in_allowlist] and not allowed; in default-allow mode
    the address is [allowed].  Two spellings of an address that differ in
    case only are classified alike. *)
Theorem classify_precedence (a : ContractAllowlist.t) (addr : string) :
  let k := Js.toLowerCase addr in
  let r := check addr a in
  (k ∈ blocklist a -> status r = blocked /\ allowed r = false)
  /\ (k ∉ blocklist a -> allowSystemContracts a = true -> k ∈ systemContracts a ->
      status r = system_safe /\ allowed r = true)
  /\ (k ∉ blocklist a -> allowSystemContracts a = false \/ k ∉ systemContracts a ->
      forall al, allowlist a = Some al ->
        (k ∈ al -> status r = allowed_status /\ allowed r = true)
        /\ (k ∉ al -> status r = not_in_allowlist /\ allowed r = false))
  /\ (k ∉ blocklist a -> allowSystemContracts a = false \/ k ∉ systemContracts a ->
      allowlist a = None -> status r = allowed_status /\ allowed r = true)
  /\ (forall addr', Js.toLowerCase addr' = k ->
        status (check addr' a) = status r /\ allowed (check addr' a) = allowed r).
Proof.
  intros k r. subst r. unfold check. fold k.
  split_and!.
  - intros Hb. rewrite bool_decide_eq_true_2 by exact Hb. done.
  - intros Hb Hs Hm.
    rewrite (bool_decide_eq_false_2 _ Hb), Hs, (bool_decide_eq_true_2 _ Hm). done.
  - intros Hb Hs al Hal.
    rewrite (bool_decide_eq_false_2 _ Hb), (system_not_honoured _ _ Hs), Hal.
    split; intros Hm;
      [rewrite (bool_decide_eq_true_2 _ Hm) | rewrite (bool_decide_eq_false_2 _ Hm)];
      done.
  - intros Hb Hs Hal.
    rewrite (bool_decide_eq_false_2 _ Hb), (system_not_honoured _ _ Hs), Hal. done.
  - intros addr' E. rewrite E.
    destruct (bool_decide (k ∈ blocklist a)); [done|].
    destruct (allowSystemContracts a && bool_decide (k ∈ systemContracts a)); [done|].
    destruct (allowlist a) as [al|]; [|done].
    destruct (bool_decide (k ∈ al)); done.
Qed.

End Classifier.

(** ** Running programs *)

Section Runs.

Import Host.

Context {W : Type}.
Variable handler : forall X : Type, event X -> W -> X * W.

Lemma run_bind {A B : Type} (p : prog A) (f : A -> prog B) (w : W) :
  run handler (x <- p ;; f x) w
  = let '(a, w1, t1) := run handler p w in
    let '(b, w2, t2) := run handler (f a) w1 in
    (b, w2, app t1 t2).
Proof.
  revert w. induction p as [a | X e k IH]; intros w; cbn [bind run].
  - destruct (run handler (f a) w) as [[b w2] t2]. reflexivity.
  - destruct (handler X e w) as [x w1]. rewrite IH.
    destruct (run handler (k x) w1) as [[a w2] t1].
    destruct (run handler (f a) w2) as [[b w3] t2]. reflexivity.
Qed.

Lemma run_trigger {X : Type} (e : event X) (w : W) :
  run handler (trigger e) w
  = (fst (handler X e w), snd (handler X e w), [Obs e (fst (handler X e w))]).
Proof.
  unfold trigger. cbn [run]. destruct (handler X e w) as [x w1]. reflexivity.
Qed.

Lemma call_count_app (t1 t2 : list observed) :
  call_count (app t1 t2) = (call_count t1 + call_count t2)%nat.
Proof. unfold call_count. rewrite List.filter_app, length_app. reflexivity. Qed.

End Runs.

Lemma prefix_length (p s : string) :
  String.prefix p s = true -> (String.length p <= String.length s)%nat.
Proof.
  revert s. induction p as [|c p IH]; intros s H; cbn [String.length]; [lia|].
  destruct s as [|d s]; [discriminate H|]. cbn [String.length].
  simpl in H. destruct (ascii_dec c d); [|discriminate H].
  specialize (IH s H). lia.
Qed.

Lemma analyzeReturnData_revert (d : string) :
  Js.startsWith "0x08c379a0" d = true ->
  In "Transaction includes revert reason - check contract state"
     (TransactionSimulator.analyzeReturnDataForWarnings d).
Proof.
  intros H. unfold TransactionSimulator.analyzeReturnDataForWarnings.
  pose proof (prefix_length _ _ H) as Hlen. cbn [String.length] in Hlen.
  destruct (Nat.ltb_spec 2 (String.length d)) as [_ | Hshort]; [|lia].
  rewrite H. destruct (Js.startsWith "0x4e487b71" d); cbn; auto.
Qed.

Lemma analyzeReturnData_panic (d : string) :
  Js.startsWith "0x4e487b71" d = true ->
  In "Transaction would trigger panic (overflow, div by zero, etc.)"
     (TransactionSimulator.analyzeReturnDataForWarnings d).
Proof.
  intros H. unfold TransactionSimulator.analyzeReturnDataForWarnings.
  pose proof (prefix_length _ _ H) as Hlen. cbn [String.length] in Hlen.
  destruct (Nat.ltb_spec 2 (String.length d)) as [_ | Hshort]; [|lia].
  rewrite H. destruct (Js.startsWith "0x08c379a0" d); cbn; auto.
Qed.

(** ** The simulator *)

Section Simulator.

Import Host.

Context {W : Type}.
Variable handler : forall X : Type, event X -> W -> X * W.
Variable toLocaleString : Z -> string.

Abbreviation sim_simulate := (TransactionSimulator.simulate toLocaleString).

(** The loop of [simulateWithRetry] around [client.call]: it never makes
    more attempts than it has iterations left, it gives up only when all of
    them are used, and [call] is the only query it sends. *)
Lemma retry_loop_calls (p : CallParameters) (m : Z) (remaining : nat) :
  forall (i : Z) (last : Js.thrown) (w : W),
    let R := run handler
               (TransactionSimulator.retry_loop m (trigger (ClientCall p))
                  remaining i last) w in
    (call_count (snd R) <= remaining)%nat
    /\ (forall e, fst (fst R) = Js.Rejected e -> call_count (snd R) = remaining)
    /\ (forall v, fst (fst R) = Js.Resolved v -> (1 <= call_count (snd R))%nat)
    /\ rpc_calls (snd R) = List.filter is_call (snd R).
Proof.
  induction remaining as [|remaining IH]; intros i last w R; subst R;
    cbn [TransactionSimulator.retry_loop].
  - cbn. split_and!; [lia | reflexivity | discriminate | reflexivity].
  - rewrite run_bind, run_trigger.
    destruct (handler _ (ClientCall p) w) as [[v | e] w1]; cbn [fst snd].
    + cbn. split_and!; [lia | discriminate | lia | reflexivity].
    + set (last' := match e with
                     | Js.ThrownError _ => e
                     | Js.ThrownOther => Js.ThrownError "Unknown error"
                     end).
      destruct (i <? m - 1).
      * rewrite run_bind, run_trigger.
        destruct (handler _ (Sleep (100 * (i + 1))) w1) as [[] w2]; cbn [fst snd].
        specialize (IH (i + 1) last' w2). cbv zeta in IH.
        destruct (run handler _ w2) as [[r w3] tr]. cbn [fst snd] in *.
        destruct IH as (Hle & Hrej & Hres & Hrpc).
        unfold call_count, rpc_calls in *. cbn.
        split_and!; [lia | | | congruence].
        -- intros e' E. rewrite (Hrej e' E). reflexivity.
        -- intros v E. lia.
      * specialize (IH (i + 1) last' w1). cbv zeta in IH.
        destruct (run handler _ w1) as [[r w3] tr]. cbn [fst snd] in *.
        destruct IH as (Hle & Hrej & Hres & Hrpc).
        unfold call_count, rpc_calls in *. cbn.
        split_and!; [lia | | | congruence].
        -- intros e' E. rewrite (Hrej e' E). reflexivity.
        -- intros v E. lia.
Qed.

Lemma retry_loop_attempts (p : CallParameters) (m : Z) (remaining : nat)
    (i : Z) (last : Js.thrown) (w : W) :
  (1 <= remaining)%nat ->
  (1 <= call_count
          (snd (run handler
                  (TransactionSimulator.retry_loop m (trigger (ClientCall p))
                     remaining i last) w)))%nat.
Proof.
  intros Hpos.
  destruct (retry_loop_calls p m remaining i last w) as (_ & Hrej & Hres & _).
  cbv zeta in Hrej, Hres.
  destruct (run handler _ w) as [[[v | e] w1] tr]; cbn [fst snd] in *.
  - apply (Hres v). reflexivity.
  - rewrite (Hrej e) by reflexivity. exact Hpos.
Qed.

(** A first attempt that fails is followed by a second one whenever the
    loop has two iterations, whatever the error was. *)
Lemma retry_loop_second_attempt (p : CallParameters) (m : Z) (remaining : nat)
    (i : Z) (last : Js.thrown) (w w1 : W) (e : Js.thrown) :
  handler _ (ClientCall p) w = (Js.Rejected e, w1) ->
  (2 <= remaining)%nat ->
  (2 <= call_count
          (snd (run handler
                  (TransactionSimulator.retry_loop m (trigger (ClientCall p))
                     remaining i last) w)))%nat.
Proof.
  intros Hfail Hrem.
  destruct remaining as [|remaining]; [lia|].
  cbn [TransactionSimulator.retry_loop].
  rewrite run_bind, run_trigger, Hfail. cbn [fst snd].
  set (last' := match e with
                 | Js.ThrownError _ => e
                 | Js.ThrownOther => Js.ThrownError "Unknown error"
                 end).
  destruct (i <? m - 1).
  - rewrite run_bind, run_trigger.
    destruct (handler _ (Sleep (100 * (i + 1))) w1) as [[] w2]; cbn [fst snd].
    pose proof (retry_loop_attempts p m remaining (i + 1) last' w2) as H.
    destruct (run handler _ w2) as [[r w3] tr]. cbn [fst snd] in *.
    unfold call_count in *. cbn. lia.
  - pose proof (retry_loop_attempts p m remaining (i + 1) last' w1) as H.
    destruct (run handler _ w1) as [[r w3] tr]. cbn [fst snd] in *.
    unfold call_count in *. cbn. lia.
Qed.

(** What [simulate] adds to the trace of its retry loop: at most one gas
    estimate, never a [call]. *)
Lemma simulate_run (sim : TransactionSimulator.t) (tx : TransactionRequest)
    (signer : option string) (w : W) :
  let R0 := run handler
              (TransactionSimulator.simulateWithRetry sim
                 (trigger (ClientCall (TransactionSimulator.call_parameters tx)))) w in
  let R := run handler (sim_simulate sim tx signer) w in
  call_count (snd R) = call_count (snd R0)
  /\ (forall e, fst (fst R0) = Js.Rejected e ->
        TransactionSimulator.success (fst (fst R)) = false /\ snd R = snd R0)
  /\ (forall v, fst (fst R0) = Js.Resolved v ->
        TransactionSimulator.success (fst (fst R)) = true
        /\ TransactionSimulator.returnData (fst (fst R)) = return_data v
        /\ forall d, return_data v = Some d -> d <> "" ->
             incl (TransactionSimulator.analyzeReturnDataForWarnings d)
                  (TransactionSimulator.warnings (fst (fst R)))).
Proof.
  intros R0 R. subst R R0. unfold TransactionSimulator.simulate.
  rewrite run_bind.
  destruct (run handler (TransactionSimulator.simulateWithRetry sim _) w)
    as [[[v | e] w1] tr1]; cbn [fst snd].
  - destruct (TransactionSimulator.wants_gas_estimate tx).
    + rewrite run_bind, run_trigger.
      destruct (handler _ (ClientEstimateGas _) w1) as [[g | e] w2]; cbn [fst snd run].
      * rewrite call_count_app.
        split_and!; [cbn; lia | discriminate |].
        intros v' [= <-]. split_and!; [reflexivity | reflexivity |].
        intros d Hd Hne. rewrite Hd.
        destruct (String.eqb_spec d ""); [contradiction|]. cbn [negb].
        destruct (g >? 500000); intros x Hx; cbn [TransactionSimulator.warnings];
          rewrite ?in_app_iff; cbn [app]; auto.
      * rewrite call_count_app.
        split_and!; [cbn; lia | discriminate |].
        intros v' [= <-]. split_and!; [reflexivity | reflexivity |].
        intros d Hd Hne. rewrite Hd.
        destruct (String.eqb_spec d ""); [contradiction|]. cbn [negb].
        intros x Hx; cbn [TransactionSimulator.warnings];
          rewrite ?in_app_iff; cbn [app]; auto.
    + cbn [run fst snd]. rewrite call_count_app.
      split_and!; [cbn; lia | discriminate |].
      intros v' [= <-]. split_and!; [reflexivity | reflexivity |].
      intros d Hd Hne. rewrite Hd.
      destruct (String.eqb_spec d ""); [contradiction|]. cbn [negb].
      intros x Hx; cbn [TransactionSimulator.warnings]; cbn [app]; auto.
  - set (msg := match e with
                | Js.ThrownError message => message
                | Js.ThrownOther => "Unknown simulation error"
                end).
    destruct (Js.includes "insufficient funds" (Js.toLowerCase msg));
      [|destruct (Js.includes "revert" (Js.toLowerCase msg))];
      cbn [run fst snd]; rewrite app_nil_r;
      (split_and!; [reflexivity | | discriminate]);
      intros e' _; split; reflexivity.
Qed.

(** C6, as the code has it.  The retry loop does not look at the error of
    a failed attempt: [simulate] never makes more than [maxRetries] calls,
    it reports a failure only after exactly [maxRetries] failed calls, and
    a first call that fails is followed by a second one whenever
    [maxRetries] is at least two, whatever its error, insufficient funds
    and reverts included. *)
Theorem simulate_retries_every_failure (sim : TransactionSimulator.t)
    (tx : TransactionRequest) (signer : option string) (w : W) :
  let R := run handler (sim_simulate sim tx signer) w in
  (call_count (snd R) <= Z.to_nat (TransactionSimulator.maxRetries sim))%nat
  /\ (TransactionSimulator.success (fst (fst R)) = false ->
      call_count (snd R) = Z.to_nat (TransactionSimulator.maxRetries sim))
  /\ (forall e w1,
        handler _ (ClientCall (TransactionSimulator.call_parameters tx)) w
        = (Js.Rejected e, w1) ->
        2 <= TransactionSimulator.maxRetries sim ->
        (2 <= call_count (snd R))%nat).
Proof.
  intros R. subst R.
  destruct (simulate_run sim tx signer w) as (Hcount & Hrej & Hres).
  cbv zeta in Hcount, Hrej, Hres. rewrite Hcount.
  unfold TransactionSimulator.simulateWithRetry in *.
  destruct (retry_loop_calls (TransactionSimulator.call_parameters tx)
              (TransactionSimulator.maxRetries sim)
              (Z.to_nat (TransactionSimulator.maxRetries sim)) 0 Js.ThrownOther w)
    as (Hle & Hall & _).
  cbv zeta in Hle, Hall.
  split_and!.
  - exact Hle.
  - intros Hfail.
    destruct (run handler
                (TransactionSimulator.retry_loop _ _ _ 0 Js.ThrownOther) w)
      as [[[v | e] w1] tr1] eqn:E; cbn [fst snd] in *.
    + destruct (Hres v eq_refl) as (Hs & _). congruence.
    + apply (Hall e). reflexivity.
  - intros e w1 Hcall Hmax.
    apply (retry_loop_second_attempt _ _ _ _ _ w w1 e Hcall). lia.
Qed.

(** C7.  When the read-only call goes through, [simulate] reports
    [success = true] with the returned data, whatever the data is: a
    payload that starts with the revert-reason prefix [0x08c379a0] or the
    panic prefix [0x4e487b71] (hexadecimal text in lower case, as nodes
    return it) only adds its warning to the list. *)
Theorem successful_call_stays_successful (sim : TransactionSimulator.t)
    (tx : TransactionRequest) (signer : option string) (w w1 : W)
    (d : option string) (tr1 : list observed) :
  run handler
    (TransactionSimulator.simulateWithRetry sim
       (trigger (ClientCall (TransactionSimulator.call_parameters tx)))) w
  = (Js.Resolved {| return_data := d |}, w1, tr1) ->
  let res := fst (fst (run handler (sim_simulate sim tx signer) w)) in
  TransactionSimulator.success res = true
  /\ TransactionSimulator.returnData res = d
  /\ (forall payload, d = Some payload ->
        Js.startsWith "0x08c379a0" payload = true ->
        In "Transaction includes revert reason - check contract state"
           (TransactionSimulator.warnings res))
  /\ (forall payload, d = Some payload ->
        Js.startsWith "0x4e487b71" payload = true ->
        In "Transaction would trigger panic (overflow, div by zero, etc.)"
           (TransactionSimulator.warnings res)).
Proof.
  intros Hcall res. subst res.
  destruct (simulate_run sim tx signer w) as (_ & _ & Hres).
  cbv zeta in Hres. rewrite Hcall in Hres. cbn [fst snd] in Hres.
  destruct (Hres _ eq_refl) as (Hs & Hd & Hw). cbn [return_data] in Hd, Hw.
  split_and!; [exact Hs | exact Hd | |].
  - intros payload -> Hp. apply (Hw payload eq_refl).
    + intros ->. discriminate Hp.
    + apply analyzeReturnData_revert, Hp.
  - intros payload -> Hp. apply (Hw payload eq_refl).
    + intros ->. discriminate Hp.
    + apply analyzeReturnData_panic, Hp.
Qed.

End Simulator.

(** ** The pipeline *)

Section Pipeline.

Import Host.

Context {W : Type}.
Variable handler : forall X : Type, event X -> W -> X * W.
Variable toFixed4 : Z -> string.
Variable toLocaleString : Z -> string.

Abbreviation fw_check := (TransactionFirewall.check toFixed4 toLocaleString).
Abbreviation formatWei := (SpendingLimits.formatWei toFixed4).

(** Step 1 of [check] on a transaction with a destination. *)
Lemma contract_checks_of_destination (fw : TransactionFirewall.t)
    (tx : TransactionRequest) (addr : string) :
  to tx = Some addr -> addr <> "" ->
  ContractAllowlist.checkAll (TransactionSimulator.extractContractAddresses tx)
    (TransactionFirewall.allowlist fw)
  = [ContractAllowlist.check addr (TransactionFirewall.allowlist fw)].
Proof.
  intros Hto Hne. unfold TransactionSimulator.extractContractAddresses.
  rewrite Hto. destruct (String.eqb_spec addr ""); [contradiction|]. reflexivity.
Qed.

(** Step 1 lets the transaction through when its destination, if any, is
    classified as allowed. *)
Lemma no_rejected_contract (fw : TransactionFirewall.t) (tx : TransactionRequest) :
  (forall addr, to tx = Some addr ->
     ContractAllowlist.allowed
       (ContractAllowlist.check addr (TransactionFirewall.allowlist fw)) = true) ->
  List.find (fun c => negb (ContractAllowlist.allowed c))
    (ContractAllowlist.checkAll (TransactionSimulator.extractContractAddresses tx)
       (TransactionFirewall.allowlist fw)) = None.
Proof.
  intros Hok. unfold TransactionSimulator.extractContractAddresses.
  destruct (to tx) as [addr|]; [|reflexivity].
  destruct (negb (addr =? "")%string); [|reflexivity].
  cbn. rewrite (Hok addr eq_refl). reflexivity.
Qed.

(** C4.  When the destination of a transaction is classified as not
    allowed, [check] returns at once: the decision is a rejection that
    carries the reason of the classification, the trace is empty (no gas
    price or gas estimate query, no clock read by the ledger, no simulation
    call), and neither the firewall nor the world has changed. *)
Theorem rejected_destination_short_circuits (fw : TransactionFirewall.t)
    (tx : TransactionRequest) (addr : string) (w : W) :
  to tx = Some addr -> addr <> "" ->
  ContractAllowlist.allowed
    (ContractAllowlist.check addr (TransactionFirewall.allowlist fw)) = false ->
  run handler (fw_check fw tx) w
  = (({| TransactionFirewall.allowed := false;
         TransactionFirewall.reason :=
           ContractAllowlist.reason
             (ContractAllowlist.check addr (TransactionFirewall.allowlist fw));
         TransactionFirewall.warnings := Some [];
         TransactionFirewall.simulationResult := None;
         TransactionFirewall.contractsChecked :=
           Some [ContractAllowlist.check addr (TransactionFirewall.allowlist fw)];
         TransactionFirewall.estimatedSpend := None |}, fw), w, []).
Proof.
  intros Hto Hne Hno. unfold TransactionFirewall.check.
  rewrite (contract_checks_of_destination fw tx addr Hto Hne).
  cbn [List.find]. rewrite Hno. reflexivity.
Qed.

(** The trace of [estimateSpend]: it opens with the gas price query and
    holds no [call]; with gas figures that are not negative the estimate is
    at least the value of the transaction. *)
Lemma estimateSpend_run (sim : TransactionSimulator.t) (tx : TransactionRequest)
    (payer : string) (w : W) :
  let R := run handler
             (TransactionSimulator.estimateSpend toLocaleString sim tx payer) w in
  call_count (snd R) = 0%nat
  /\ (exists answer rest, snd R = Obs ClientGetGasPrice answer :: rest)
  /\ ((forall w g w', handler _ ClientGetGasPrice w = (Js.Resolved g, w') -> 0 <= g) ->
      (forall p w g w',
          handler _ (ClientEstimateGas p) w = (Js.Resolved g, w') -> 0 <= g) ->
      (forall g, gas tx = Some g -> 0 <= g) ->
      TransactionSimulator.or_default (value tx) 0
      <= TransactionSimulator.estimatedSpend (fst (fst R))).
Proof.
  intros R. subst R. unfold TransactionSimulator.estimateSpend.
  rewrite run_bind, run_trigger.
  destruct (handler _ ClientGetGasPrice w) as [p w1] eqn:Egp. cbn [fst snd].
  set (gasPrice := match p with Js.Resolved g => g | Js.Rejected _ => 1000000000 end).
  assert ((forall w g w', handler _ ClientGetGasPrice w = (Js.Resolved g, w') -> 0 <= g)
          -> 0 <= gasPrice) as Hprice.
  { intros H. subst gasPrice. destruct p as [g | e]; [eapply H, Egp | lia]. }
  rewrite run_bind.
  destruct (TransactionSimulator.wants_gas_estimate tx).
  - rewrite run_bind, run_trigger.
    destruct (handler _ (ClientEstimateGas _) w1) as [[g | e] w2] eqn:Ege;
      cbn [fst snd run app].
    + split_and!; [reflexivity | eauto |].
      intros Hgp Hge Hgas. cbn [TransactionSimulator.estimatedSpend].
      specialize (Hprice Hgp). pose proof (Hge _ _ _ _ Ege). nia.
    + split_and!; [reflexivity | eauto |].
      intros Hgp Hge Hgas. cbn [TransactionSimulator.estimatedSpend].
      specialize (Hprice Hgp).
      destruct (TransactionSimulator.has_calldata tx); nia.
  - cbn [fst snd run app].
    split_and!; [reflexivity | eauto |].
    intros Hgp Hge Hgas. cbn [TransactionSimulator.estimatedSpend].
    specialize (Hprice Hgp).
    assert (0 <= TransactionSimulator.or_default (gas tx) 21000) as Hg.
    { unfold TransactionSimulator.or_default.
      destruct (gas tx) as [g|]; [|lia].
      destruct (g =? 0); [lia | apply Hgas; reflexivity]. }
    nia.
Qed.

(** C5, as the code has it.  With a payer configured, a transaction to an
    allowed destination whose value exceeds the per-transaction cap is
    rejected with the per-tx reason before simulation: no [call] is sent
    and the decision carries no simulation result.  The spend estimate that
    comes first does query the chain: the trace opens with the gas price
    query (a gas estimate may follow).  The gas figures the chain returns
    are taken not to be negative. *)
Theorem per_tx_rejection_before_simulation (fw : TransactionFirewall.t)
    (tx : TransactionRequest) (v : Z) (w : W) :
  Js.truthy_string (TransactionFirewall.payerAddress fw) = true ->
  (forall addr, to tx = Some addr ->
     ContractAllowlist.allowed
       (ContractAllowlist.check addr (TransactionFirewall.allowlist fw)) = true) ->
  value tx = Some v ->
  v > SpendingLimits.maxPerTx (TransactionFirewall.limits fw) ->
  (forall w g w', handler _ ClientGetGasPrice w = (Js.Resolved g, w') -> 0 <= g) ->
  (forall p w g w', handler _ (ClientEstimateGas p) w = (Js.Resolved g, w') -> 0 <= g) ->
  (forall g, gas tx = Some g -> 0 <= g) ->
  let R := run handler (fw_check fw tx) w in
  let res := fst (fst (fst R)) in
  TransactionFirewall.allowed res = false
  /\ (exists est,
        TransactionFirewall.estimatedSpend res = Some est
        /\ v <= est
        /\ TransactionFirewall.reason res
           = Some ("Transaction amount " ++ formatWei est ++ " exceeds per-tx limit of "
                   ++ formatWei (SpendingLimits.maxPerTx (TransactionFirewall.limits fw))))
  /\ TransactionFirewall.simulationResult res = None
  /\ call_count (snd R) = 0%nat
  /\ (exists answer rest, snd R = Obs ClientGetGasPrice answer :: rest).
Proof.
  intros Hpayer Hdest Hval Hover Hgp Hge Hgas R res. subst res R.
  unfold TransactionFirewall.check.
  rewrite (no_rejected_contract fw tx Hdest), Hpayer.
  rewrite run_bind.
  destruct (estimateSpend_run (TransactionFirewall.simulator fw) tx
              (match TransactionFirewall.payerAddress fw with
               | Some p => p
               | None => ""
               end) w) as (Hcalls & (answer & rest & Htrace) & Hest).
  cbv zeta in Hcalls, Htrace, Hest. specialize (Hest Hgp Hge Hgas).
  destruct (run handler (TransactionSimulator.estimateSpend _ _ _ _) w)
    as [[spend w1] tr1]. cbn [fst snd] in *.
  rewrite run_bind, run_trigger.
  destruct (handler _ GetTodayDate w1) as [today w2]. cbn [fst snd].
  set (est := TransactionSimulator.estimatedSpend spend) in *.
  assert (v <= est) as Hv.
  { rewrite Hval in Hest. unfold TransactionSimulator.or_default in Hest.
    destruct (Z.eqb_spec v 0); lia. }
  assert (est > SpendingLimits.maxPerTx (TransactionFirewall.limits fw)) as Hest' by lia.
  rewrite (check_per_tx toFixed4 today est (TransactionFirewall.limits fw) Hest').
  cbn [SpendingLimits.allowed SpendingLimits.reason negb run fst snd].
  cbn [TransactionFirewall.allowed TransactionFirewall.reason
       TransactionFirewall.estimatedSpend TransactionFirewall.simulationResult].
  split_and!.
  - reflexivity.
  - exists est. split_and!; [reflexivity | exact Hv | reflexivity].
  - reflexivity.
  - rewrite call_count_app, Hcalls. reflexivity.
  - subst tr1. exists answer. eexists. reflexivity.
Qed.

Lemma empty_not_system_safe :
  "" ∉ ContractAllowlist.lowered ContractAllowlist.SAFE_SYSTEM_CONTRACTS.
Proof.
  intros H. apply (bool_decide_eq_true_2 _) in H. vm_compute in H. discriminate H.
Qed.

(** C10.  The pipeline builds its classifier without the option that turns
    system contracts off, so for every configuration they are honoured: a
    destination of the built-in system-safe set that is not in the block
    set is classified [system_safe] and allowed, step 1 of [check] never
    rejects it, also in allow-list mode with an empty allow list, and with
    no payer and no simulation required the decision is an acceptance. *)
Theorem system_safe_always_honoured (today : string)
    (config : TransactionFirewall.FirewallConfig) (addr : string) :
  let fw := TransactionFirewall.constructor today config in
  let verdict :=
    {| ContractAllowlist.allowed := true;
       ContractAllowlist.reason := None;
       ContractAllowlist.contractAddress := addr;
       ContractAllowlist.status := ContractAllowlist.system_safe |} in
  Js.toLowerCase addr ∈ ContractAllowlist.lowered ContractAllowlist.SAFE_SYSTEM_CONTRACTS ->
  Js.toLowerCase addr ∉ ContractAllowlist.blocklist (TransactionFirewall.allowlist fw) ->
  ContractAllowlist.allowSystemContracts (TransactionFirewall.allowlist fw) = true
  /\ ContractAllowlist.check addr (TransactionFirewall.allowlist fw) = verdict
  /\ (forall tx, to tx = Some addr ->
        List.find (fun c => negb (ContractAllowlist.allowed c))
          (ContractAllowlist.checkAll
             (TransactionSimulator.extractContractAddresses tx)
             (TransactionFirewall.allowlist fw)) = None)
  /\ (forall tx (w : W), to tx = Some addr ->
        TransactionFirewall.config_payerAddress config = None ->
        TransactionFirewall.config_requireSimulation config = Some false ->
        let res := fst (fst (fst (run handler (fw_check fw tx) w))) in
        TransactionFirewall.allowed res = true
        /\ TransactionFirewall.contractsChecked res = Some [verdict]).
Proof.
  intros fw verdict Hsys Hblock.
  assert (ContractAllowlist.check addr (TransactionFirewall.allowlist fw) = verdict)
    as Hcheck.
  { unfold ContractAllowlist.check.
    rewrite (bool_decide_eq_false_2 _ Hblock).
    cbn [fw TransactionFirewall.constructor TransactionFirewall.allowlist
         ContractAllowlist.constructor ContractAllowlist.allowSystemContracts
         ContractAllowlist.systemContracts
         ContractAllowlist.config_allowSystemContracts].
    rewrite (bool_decide_eq_true_2 _ Hsys). reflexivity. }
  assert (addr <> "") as Hne.
  { intros ->. exact (empty_not_system_safe Hsys). }
  assert (forall tx, to tx = Some addr ->
            List.find (fun c => negb (ContractAllowlist.allowed c))
              (ContractAllowlist.checkAll
                 (TransactionSimulator.extractContractAddresses tx)
                 (TransactionFirewall.allowlist fw)) = None) as Hstep1.
  { intros tx Hto. apply no_rejected_contract.
    intros addr' Hto'. rewrite Hto in Hto'. injection Hto' as <-.
    rewrite Hcheck. reflexivity. }
  split_and!; [reflexivity | exact Hcheck | exact Hstep1 |].
  intros tx w Hto Hpayer Hsim res. subst res.
  unfold TransactionFirewall.check. rewrite (Hstep1 tx Hto).
  rewrite (contract_checks_of_destination fw tx addr Hto Hne), Hcheck.
  unfold TransactionFirewall.check_after_spend.
  cbn [fw TransactionFirewall.constructor TransactionFirewall.payerAddress
       TransactionFirewall.requireSimulation].
  rewrite Hpayer, Hsim. cbn [Js.truthy_string run fst snd].
  split; reflexivity.
Qed.

End Pipeline.

(** ** The public accessors of the ledger *)

(** C9.  [getRemainingDaily()] and [getStatus().spending.remainingDaily]
    are the daily limit minus the daily spend of the ledger (after its
    period-boundary reset), with no clamping at zero: once an amount is
    recorded that takes the spend over the limit, both are negative. *)
Theorem remaining_daily_unclamped (today : string) (fw : TransactionFirewall.t) :
  let s := SpendingLimits.maybeResetDaily today (TransactionFirewall.limits fw) in
  fst (TransactionFirewall.getRemainingDaily today fw)
  = SpendingLimits.maxDaily s - SpendingLimits.dailySpend s
  /\ TransactionFirewall.remainingDaily
       (TransactionFirewall.spending (fst (TransactionFirewall.getStatus today fw)))
     = SpendingLimits.maxDaily s - SpendingLimits.dailySpend s
  /\ (forall a,
        SpendingLimits.dailySpend s + a > SpendingLimits.maxDaily s ->
        let fw' := TransactionFirewall.recordSpend today a fw in
        fst (TransactionFirewall.getRemainingDaily today fw') < 0
        /\ TransactionFirewall.remainingDaily
             (TransactionFirewall.spending
                (fst (TransactionFirewall.getStatus today fw'))) < 0).
Proof.
  intros s. split_and!; [reflexivity | reflexivity |].
  intros a Hover fw'. subst fw'.
  unfold TransactionFirewall.getRemainingDaily, TransactionFirewall.getStatus,
    TransactionFirewall.recordSpend, SpendingLimits.getStatus,
    SpendingLimits.recordSpend.
  fold s.
  cbn [fst snd TransactionFirewall.limits TransactionFirewall.with_limits
       TransactionFirewall.spending TransactionFirewall.remainingDaily
       SpendingLimits.status_dailyLimit SpendingLimits.status_dailySpend].
  assert (SpendingLimits.lastResetDate s = today) as Hdate
    by apply maybeResetDaily_date.
  unfold SpendingLimits.maybeResetDaily at 1 2 3 4.
  cbn [SpendingLimits.lastResetDate]. rewrite Hdate, String.eqb_refl.
  cbn [negb SpendingLimits.maxDaily SpendingLimits.dailySpend]. lia.
Qed.

(** ** The calldata scan *)

(** When the scan emits the unlimited-approval warning: the selector,
    compared in lower case, is [approve], the calldata holds two parameter
    slots, and the 64 digits of the second are all the lower-case letter
    [f]. *)
Lemma checkCalldata_unlimited (data : string) :
  In TransactionFirewall.UNLIMITED_APPROVAL_WARNING
     (TransactionFirewall.checkCalldata data)
  <-> Js.toLowerCase (Js.slice 0 10 data) = "0x095ea7b3"
      /\ (138 <= String.length data)%nat
      /\ Js.slice 74 138 data = Js.repeat "f" 64.
Proof.
  unfold TransactionFirewall.checkCalldata.
  set (sel := Js.toLowerCase (Js.slice 0 10 data)).
  set (first := match TransactionFirewall.SUSPICIOUS_SELECTORS !! sel with
                | Some description => _
                | None => _
                end).
  assert (~ In TransactionFirewall.UNLIMITED_APPROVAL_WARNING first) as Hfirst.
  { subst first. destruct (TransactionFirewall.SUSPICIOUS_SELECTORS !! sel) as [d|];
      [|intros []].
    destruct (negb (d =? "")%string); [|intros []].
    intros [E | []]. discriminate E. }
  destruct (String.eqb_spec sel "0x095ea7b3") as [Hsel | Hsel];
    destruct (Nat.leb_spec 138 (String.length data)) as [Hlen | Hlen];
    cbn [andb]; try (split; [intros H; contradiction | intros (? & ? & ?); lia || congruence]).
  destruct (String.eqb_spec (Js.slice 74 138 data) (Js.repeat "f" 64)) as [Ha | Ha].
  - split; [intros _; auto | intros _; apply in_or_app; right; left; reflexivity].
  - split; [intros H; contradiction | intros (_ & _ & ?); contradiction].
Qed.

(** C1 at a ledger holding 10 ETH per day and 1 ETH per transaction: 2 ETH is
    rejected on the per-transaction cap, 1 ETH is allowed and leaves 9 ETH. *)
Lemma ledger_check_spec_witness :
  let s0 := SpendingLimits.constructor "2026-01-01"
              {| SpendingLimits.maxDailySpend := 10 * ExampleHost.ETH;
                 SpendingLimits.maxPerTxSpend := 1 * ExampleHost.ETH |} in
  SpendingLimits.reason
    (fst (SpendingLimits.check ExampleHost.toFixed4 "2026-01-01" (2 * ExampleHost.ETH) s0))
  = Some "Transaction amount 2.0000 ETH exceeds per-tx limit of 1.0000 ETH"
  /\ SpendingLimits.remainingDaily
       (fst (SpendingLimits.check ExampleHost.toFixed4 "2026-01-02" (1 * ExampleHost.ETH) s0))
     = 9 * ExampleHost.ETH.
Proof.
  intros s0. split.
  - destruct (ledger_check_spec ExampleHost.toFixed4 "2026-01-01"
                (2 * ExampleHost.ETH) s0) as (_ & _ & H & _).
    destruct H as (_ & H & _); [vm_compute; reflexivity|].
    rewrite H. vm_compute. reflexivity.
  - destruct (ledger_check_spec ExampleHost.toFixed4 "2026-01-02"
                (1 * ExampleHost.ETH) s0) as (_ & _ & _ & _ & H).
    destruct H as (_ & _ & H); [vm_compute; discriminate | vm_compute; discriminate |].
    rewrite H. vm_compute. reflexivity.
Defined.

(** C2 as stated fails: [recordSpend] adds whatever it is given.  With a cap
    of 10 ETH, one call recording 11 ETH leaves the period spend above the
    cap. *)
Lemma recordSpend_exceeds_cap :
  let s := Caller.record_all "2026-01-01" [11 * ExampleHost.ETH]
             (SpendingLimits.constructor "2026-01-01"
                {| SpendingLimits.maxDailySpend := 10 * ExampleHost.ETH;
                   SpendingLimits.maxPerTxSpend := 1 * ExampleHost.ETH |}) in
  ~ (SpendingLimits.dailySpend s <= SpendingLimits.maxDaily s).
Proof. vm_compute. intros H. apply H. reflexivity. Qed.

(** The guarded protocol at work: 0.6 ETH twice under a cap of 1 ETH; the
    second call is refused and nothing is recorded for it. *)
Lemma guarded_recordSpend_within_cap_witness :
  let calls := [ {| Caller.checked_on := "2026-01-01";
                    Caller.recorded_on := "2026-01-01";
                    Caller.amount := 6 * 10 ^ 17 |};
                 {| Caller.checked_on := "2026-01-01";
                    Caller.recorded_on := "2026-01-01";
                    Caller.amount := 6 * 10 ^ 17 |} ] in
  let s := fold_left (Caller.check_then_record ExampleHost.toFixed4) calls
             (SpendingLimits.constructor "2026-01-01"
                {| SpendingLimits.maxDailySpend := 1 * ExampleHost.ETH;
                   SpendingLimits.maxPerTxSpend := 1 * ExampleHost.ETH |}) in
  0 <= SpendingLimits.dailySpend s <= SpendingLimits.maxDaily s.
Proof.
  intros calls s.
  apply (guarded_recordSpend_within_cap ExampleHost.toFixed4).
  - vm_compute. discriminate.
  - subst calls. repeat constructor; vm_compute; discriminate.
Defined.

(** C3 at an address that is in the allow set and in the block set, and at a
    system contract that was blocked: both are [blocked]. *)
Lemma classify_precedence_witness :
  let a := ContractAllowlist.constructor
             {| ContractAllowlist.allowedContracts := Some [ExampleWorld.recipient];
                ContractAllowlist.blockedContracts :=
                  Some [ExampleWorld.recipient; ExampleWorld.weth];
                ContractAllowlist.config_allowSystemContracts := None |} in
  ContractAllowlist.status (ContractAllowlist.check ExampleWorld.recipient a)
  = ContractAllowlist.blocked
  /\ ContractAllowlist.status (ContractAllowlist.check ExampleWorld.weth a)
     = ContractAllowlist.blocked.
Proof.
  intros a. split.
  - destruct (classify_precedence a ExampleWorld.recipient) as (H & _).
    apply H. apply (bool_decide_eq_true_1 _). vm_compute. reflexivity.
  - destruct (classify_precedence a ExampleWorld.weth) as (H & _).
    apply H. apply (bool_decide_eq_true_1 _). vm_compute. reflexivity.
Defined.

(** C4 at the scenario of the specification: a transfer within both caps to
    a blocked contract is rejected with an empty trace. *)
Lemma rejected_destination_short_circuits_witness :
  let R := Host.run ExampleWorld.healthy
             (TransactionFirewall.check ExampleHost.toFixed4 ExampleHost.toLocaleString
                ExampleWorld.firewall
                (ExampleWorld.transfer ExampleWorld.drainer (5 * 10 ^ 17))) tt in
  TransactionFirewall.reason (fst (fst (fst R)))
  = Some "Contract 0xBaDc0DeBaDc0DeBaDc0DeBaDc0DeBaDc0DeBaDc0 is blocked (malicious or user-blocked)"
  /\ snd R = [].
Proof.
  intros R. subst R.
  rewrite (rejected_destination_short_circuits ExampleWorld.healthy
             ExampleHost.toFixed4 ExampleHost.toLocaleString ExampleWorld.firewall
             (ExampleWorld.transfer ExampleWorld.drainer (5 * 10 ^ 17))
             ExampleWorld.drainer tt).
  - split; vm_compute; reflexivity.
  - reflexivity.
  - discriminate.
  - vm_compute. reflexivity.
Defined.

(** C5 as stated fails: the 2 ETH transfer is rejected on the per-tx cap,
    but the check has queried the chain for the gas price and a gas
    estimate before that. *)
Lemma per_tx_rejection_queries_chain :
  let R := Host.run ExampleWorld.healthy
             (TransactionFirewall.check ExampleHost.toFixed4 ExampleHost.toLocaleString
                ExampleWorld.firewall
                (ExampleWorld.transfer ExampleWorld.recipient (2 * ExampleHost.ETH))) tt in
  TransactionFirewall.allowed (fst (fst (fst R))) = false
  /\ ~ (Host.rpc_calls (snd R) = []).
Proof.
  intros R.
  assert (Host.rpc_calls (snd R)
          = [Host.Obs Host.ClientGetGasPrice (Js.Resolved (10 ^ 9));
             Host.Obs (Host.ClientEstimateGas
                         (TransactionSimulator.estimate_parameters
                            (ExampleWorld.transfer ExampleWorld.recipient
                               (2 * ExampleHost.ETH))))
                      (Js.Resolved 21000)]) as E
    by (vm_compute; reflexivity).
  split; [vm_compute; reflexivity|].
  rewrite E. discriminate.
Qed.

(** C5 as amended, at the scenario: rejected, and no [call] was sent. *)
Lemma per_tx_rejection_before_simulation_witness :
  let R := Host.run ExampleWorld.healthy
             (TransactionFirewall.check ExampleHost.toFixed4 ExampleHost.toLocaleString
                ExampleWorld.firewall
                (ExampleWorld.transfer ExampleWorld.recipient (2 * ExampleHost.ETH))) tt in
  TransactionFirewall.allowed (fst (fst (fst R))) = false
  /\ Host.call_count (snd R) = 0%nat.
Proof.
  intros R. subst R.
  destruct (per_tx_rejection_before_simulation ExampleWorld.healthy
              ExampleHost.toFixed4 ExampleHost.toLocaleString ExampleWorld.firewall
              (ExampleWorld.transfer ExampleWorld.recipient (2 * ExampleHost.ETH))
              (2 * ExampleHost.ETH) tt) as (H1 & _ & _ & H2 & _).
  - reflexivity.
  - intros addr [= <-]. vm_compute. reflexivity.
  - reflexivity.
  - vm_compute. reflexivity.
  - intros w g w' [= <-]. vm_compute. discriminate.
  - intros p w g w' [= <-]. vm_compute. discriminate.
  - intros g [=].
  - split; assumption.
Defined.

(** C6 as stated fails: a first attempt that fails with an insufficient
    funds error is followed, after the back-off, by a second attempt (which
    here succeeds). *)
Lemma insufficient_funds_is_retried :
  let R := Host.run ExampleWorld.scripted
             (TransactionSimulator.simulate ExampleHost.toLocaleString
                ExampleWorld.simulator
                (ExampleWorld.transfer ExampleWorld.recipient (10 ^ 17)) None)
             [Js.Rejected ExampleWorld.insufficient_funds;
              Js.Resolved {| Host.return_data := None |}] in
  RetryPolicy.non_transient ExampleWorld.insufficient_funds = true
  /\ Host.call_count (snd R) = 2%nat
  /\ ~ RetryPolicy.non_transient_never_retried (snd R).
Proof.
  intros R.
  split; [vm_compute; reflexivity|].
  split; [vm_compute; reflexivity|].
  intros H.
  set (p := TransactionSimulator.call_parameters
              (ExampleWorld.transfer ExampleWorld.recipient (10 ^ 17))).
  specialize (H [] p ExampleWorld.insufficient_funds
                [Host.Obs (Host.Sleep 100) tt;
                 Host.Obs (Host.ClientCall p)
                   (Js.Resolved {| Host.return_data := None |});
                 Host.Obs (Host.ClientEstimateGas
                             (TransactionSimulator.estimate_parameters
                                (ExampleWorld.transfer ExampleWorld.recipient (10 ^ 17))))
                   (Js.Resolved 21000)]).
  assert (Host.call_count
            [Host.Obs (Host.Sleep 100) tt;
             Host.Obs (Host.ClientCall p)
               (Js.Resolved {| Host.return_data := None |});
             Host.Obs (Host.ClientEstimateGas
                         (TransactionSimulator.estimate_parameters
                            (ExampleWorld.transfer ExampleWorld.recipient (10 ^ 17))))
               (Js.Resolved 21000)] = 0%nat) as E.
  { apply H; vm_compute; reflexivity. }
  vm_compute in E. discriminate E.
Qed.

(** C6 as amended, on a chain that refuses twice, with an insufficient funds
    error and then a revert: the simulation fails after exactly two calls. *)
Lemma simulate_retries_every_failure_witness :
  let R := Host.run ExampleWorld.scripted
             (TransactionSimulator.simulate ExampleHost.toLocaleString
                ExampleWorld.simulator
                (ExampleWorld.transfer ExampleWorld.recipient (10 ^ 17)) None)
             [Js.Rejected ExampleWorld.insufficient_funds;
              Js.Rejected ExampleWorld.reverted] in
  Host.call_count (snd R) = 2%nat.
Proof.
  intros R. subst R.
  destruct (simulate_retries_every_failure ExampleWorld.scripted
              ExampleHost.toLocaleString ExampleWorld.simulator
              (ExampleWorld.transfer ExampleWorld.recipient (10 ^ 17)) None
              [Js.Rejected ExampleWorld.insufficient_funds;
               Js.Rejected ExampleWorld.reverted]) as (_ & H & _).
  rewrite H; vm_compute; reflexivity.
Defined.

(** C7 on a call that returns a revert-reason payload: still a success,
    with the warning. *)
Lemma successful_call_stays_successful_witness :
  let payload := "0x08c379a0" ++ Js.repeat "0" 56 in
  let res := fst (fst (Host.run ExampleWorld.scripted
                         (TransactionSimulator.simulate ExampleHost.toLocaleString
                            ExampleWorld.simulator
                            (ExampleWorld.transfer ExampleWorld.recipient (10 ^ 17)) None)
                         [Js.Resolved {| Host.return_data := Some payload |}])) in
  TransactionSimulator.success res = true
  /\ In "Transaction includes revert reason - check contract state"
        (TransactionSimulator.warnings res).
Proof.
  intros payload res. subst res.
  destruct (successful_call_stays_successful ExampleWorld.scripted
              ExampleHost.toLocaleString ExampleWorld.simulator
              (ExampleWorld.transfer ExampleWorld.recipient (10 ^ 17)) None
              [Js.Resolved {| Host.return_data := Some payload |}] []
              (Some payload)
              [Host.Obs (Host.ClientCall
                           (TransactionSimulator.call_parameters
                              (ExampleWorld.transfer ExampleWorld.recipient (10 ^ 17))))
                 (Js.Resolved {| Host.return_data := Some payload |})])
    as (H1 & _ & H2 & _).
  - vm_compute. reflexivity.
  - split; [exact H1|]. apply (H2 payload); [reflexivity | vm_compute; reflexivity].
Defined.

(** C8 fails on the code at an approval whose amount is written with
    upper-case digits: its second slot is 32 bytes of [0xFF], the selector
    is recognised, and the unlimited-approval warning is missing.  The same
    amount in lower case gets the warning; a zero amount does not. *)
Theorem unlimited_approval_uppercase_missed :
  let upper := ExampleWorld.approve (Js.repeat "F" 64) in
  let lower := ExampleWorld.approve (Js.repeat "f" 64) in
  let zero := ExampleWorld.approve (Js.repeat "0" 64) in
  (Calldata.is_unlimited_approval upper
   /\ TransactionFirewall.checkCalldata upper
      = ["âš ï¸ approve - check spender address carefully"]
   /\ ~ In TransactionFirewall.UNLIMITED_APPROVAL_WARNING
          (TransactionFirewall.checkCalldata upper))
  /\ (Calldata.is_unlimited_approval lower
      /\ In TransactionFirewall.UNLIMITED_APPROVAL_WARNING
            (TransactionFirewall.checkCalldata lower))
  /\ (Calldata.is_zero_approval zero
      /\ ~ In TransactionFirewall.UNLIMITED_APPROVAL_WARNING
             (TransactionFirewall.checkCalldata zero)).
Proof.
  intros upper lower zero. split_and!.
  - eexists. split_and!; vm_compute; reflexivity.
  - vm_compute. reflexivity.
  - rewrite checkCalldata_unlimited. intros (_ & _ & H). vm_compute in H. discriminate H.
  - eexists. split_and!; vm_compute; reflexivity.
  - rewrite checkCalldata_unlimited. split_and!; vm_compute; reflexivity.
  - eexists. split_and!; vm_compute; reflexivity.
  - rewrite checkCalldata_unlimited. intros (_ & _ & H). vm_compute in H. discriminate H.
Qed.

(** C9 at a ledger of 10 ETH on which 11 ETH were recorded: 1 ETH below
    zero remains. *)
Lemma remaining_daily_unclamped_witness :
  fst (TransactionFirewall.getRemainingDaily "2026-01-01"
         (TransactionFirewall.recordSpend "2026-01-01" (11 * ExampleHost.ETH)
            ExampleWorld.firewall)) < 0.
Proof.
  destruct (remaining_daily_unclamped "2026-01-01" ExampleWorld.firewall)
    as (_ & _ & H).
  apply (H (11 * ExampleHost.ETH)). vm_compute. reflexivity.
Defined.

(** C10 in allow-list mode with an empty allow list: WETH on Base is
    accepted as a system contract. *)
Lemma system_safe_always_honoured_witness :
  let fw := TransactionFirewall.constructor "2026-01-01" ExampleWorld.strict_config in
  ContractAllowlist.status
    (ContractAllowlist.check ExampleWorld.weth (TransactionFirewall.allowlist fw))
  = ContractAllowlist.system_safe
  /\ TransactionFirewall.allowed
       (fst (fst (fst (Host.run ExampleWorld.healthy
                         (TransactionFirewall.check ExampleHost.toFixed4
                            ExampleHost.toLocaleString fw
                            (ExampleWorld.transfer ExampleWorld.weth (10 ^ 17))) tt))))
     = true.
Proof.
  intros fw. subst fw.
  destruct (system_safe_always_honoured ExampleWorld.healthy ExampleHost.toFixed4
              ExampleHost.toLocaleString "2026-01-01" ExampleWorld.strict_config
              ExampleWorld.weth) as (_ & H1 & _ & H2).
  - apply (bool_decide_eq_true_1 _). vm_compute. reflexivity.
  - apply (bool_decide_eq_false_1 _). vm_compute. reflexivity.
  - split.
    + rewrite H1. reflexivity.
    + apply (H2 (ExampleWorld.transfer ExampleWorld.weth (10 ^ 17)) tt); reflexivity.
Defined.

(** * Further properties of the ledger *)

Section LedgerUse.

Variable toFixed4 : Z -> string.

Abbreviation ledger_check' := (SpendingLimits.check toFixed4).

Lemma recordSpend_date (today : string) (a : Z) (s : SpendingLimits.t) :
  SpendingLimits.lastResetDate (SpendingLimits.recordSpend today a s) = today.
Proof. unfold SpendingLimits.recordSpend. cbn. apply maybeResetDaily_date. Qed.

Lemma maybeResetDaily_today (today : string) (s : SpendingLimits.t) :
  SpendingLimits.lastResetDate s = today ->
  SpendingLimits.maybeResetDaily today s = s.
Proof. intros <-. apply maybeResetDaily_same_day. Qed.

Lemma maybeResetDaily_new_day (today : string) (s : SpendingLimits.t) :
  today <> SpendingLimits.lastResetDate s ->
  SpendingLimits.maybeResetDaily today s
  = {| SpendingLimits.dailySpend := 0;
       SpendingLimits.lastResetDate := today;
       SpendingLimits.maxDaily := SpendingLimits.maxDaily s;
       SpendingLimits.maxPerTx := SpendingLimits.maxPerTx s |}.
Proof.
  intros Hne. unfold SpendingLimits.maybeResetDaily.
  destruct (String.eqb_spec today (SpendingLimits.lastResetDate s));
    [contradiction | reflexivity].
Qed.

Lemma check_current (today : string) (a : Z) (s : SpendingLimits.t) :
  SpendingLimits.currentDailySpend (fst (ledger_check' today a s))
  = SpendingLimits.dailySpend (SpendingLimits.maybeResetDaily today s).
Proof.
  unfold SpendingLimits.check.
  destruct (_ >? _); [reflexivity|]. destruct (_ >? _); reflexivity.
Qed.

(** X1.  Within one day the ledger adds up what is recorded: after any
    sequence of [recordSpend] calls, [getStatus().dailySpend] is the spend
    the day started with (zero if the day is new) plus the sum of the
    recorded amounts. *)
Theorem recordSpend_accumulates (today : string) (amounts : list Z)
    (s : SpendingLimits.t) :
  SpendingLimits.status_dailySpend
    (fst (SpendingLimits.getStatus today (Caller.record_all today amounts s)))
  = SpendingLimits.dailySpend (SpendingLimits.maybeResetDaily today s)
    + fold_right Z.add 0 amounts.
Proof.
  unfold SpendingLimits.getStatus. cbn [fst SpendingLimits.status_dailySpend].
  revert s. induction amounts as [|a amounts IH]; intros s.
  - cbn. lia.
  - cbn [Caller.record_all fold_left fold_right].
    unfold Caller.record_all in IH. rewrite IH.
    rewrite (maybeResetDaily_today today (SpendingLimits.recordSpend today a s))
      by apply recordSpend_date.
    unfold SpendingLimits.recordSpend. cbn [SpendingLimits.dailySpend]. lia.
Qed.

(** X2.  The first operation of a new calendar day starts from zero: when
    the date read differs from the stored one, [check] reports a current
    spend of zero and stores the new date, [recordSpend] leaves exactly the
    recorded amount, and [getStatus] reports zero. *)
Theorem day_boundary_resets (today : string) (a : Z) (s : SpendingLimits.t) :
  today <> SpendingLimits.lastResetDate s ->
  SpendingLimits.currentDailySpend (fst (ledger_check' today a s)) = 0
  /\ SpendingLimits.lastResetDate (snd (ledger_check' today a s)) = today
  /\ SpendingLimits.dailySpend (snd (ledger_check' today a s)) = 0
  /\ SpendingLimits.dailySpend (SpendingLimits.recordSpend today a s) = a
  /\ SpendingLimits.status_dailySpend (fst (SpendingLimits.getStatus today s)) = 0.
Proof.
  intros Hne.
  rewrite check_current, check_state.
  unfold SpendingLimits.recordSpend, SpendingLimits.getStatus.
  rewrite (maybeResetDaily_new_day today s Hne). cbn. split_and!; reflexivity || lia.
Qed.

(** X3.  [check] reserves nothing: after a [check], whatever it answered,
    a [check] on the same day answers as it would have on the ledger
    before, and two successive checks leave the same ledger. *)
Theorem check_reserves_nothing (today : string) (a b : Z) (s : SpendingLimits.t) :
  ledger_check' today b (snd (ledger_check' today a s)) = ledger_check' today b s.
Proof.
  rewrite check_state.
  unfold SpendingLimits.check.
  rewrite (maybeResetDaily_today today (SpendingLimits.maybeResetDaily today s))
    by apply maybeResetDaily_date.
  reflexivity.
Qed.

(** X4.  The headroom [check] reports is never negative, on any ledger and
    for any amount: a rejection clamps it at zero and an acceptance leaves
    the cap minus the projected spend. *)
Theorem check_remaining_never_negative (today : string) (a : Z)
    (s : SpendingLimits.t) :
  0 <= SpendingLimits.remainingDaily (fst (ledger_check' today a s)).
Proof.
  unfold SpendingLimits.check.
  set (s1 := SpendingLimits.maybeResetDaily today s).
  destruct (Z.gtb_spec a (SpendingLimits.maxPerTx s1));
    cbn [fst SpendingLimits.remainingDaily].
  - destruct (Z.gtb_spec (SpendingLimits.maxDaily s1) (SpendingLimits.dailySpend s1));
      lia.
  - destruct (Z.gtb_spec (SpendingLimits.dailySpend s1 + a) (SpendingLimits.maxDaily s1));
      cbn [fst SpendingLimits.remainingDaily]; [|lia].
    destruct (Z.gtb_spec (SpendingLimits.maxDaily s1) (SpendingLimits.dailySpend s1));
      lia.
Qed.

(** X5.  [check] is monotone in the amount: on the same ledger and day, an
    amount no larger than an allowed one is allowed too. *)
Theorem check_monotone (today : string) (a b : Z) (s : SpendingLimits.t) :
  SpendingLimits.allowed (fst (ledger_check' today a s)) = true ->
  b <= a ->
  SpendingLimits.allowed (fst (ledger_check' today b s)) = true.
Proof.
  unfold SpendingLimits.check.
  set (s1 := SpendingLimits.maybeResetDaily today s).
  intros Ha Hb.
  destruct (Z.gtb_spec a (SpendingLimits.maxPerTx s1)); [discriminate Ha|].
  destruct (Z.gtb_spec (SpendingLimits.dailySpend s1 + a) (SpendingLimits.maxDaily s1));
    [discriminate Ha|].
  destruct (Z.gtb_spec b (SpendingLimits.maxPerTx s1)); [lia|].
  destruct (Z.gtb_spec (SpendingLimits.dailySpend s1 + b) (SpendingLimits.maxDaily s1));
    [lia | reflexivity].
Qed.

(** X6.  The period is the calendar day, not a rolling window: on a new
    day an amount within both caps is allowed whatever was spent the day
    before, so up to twice the daily cap can be approved around
    midnight. *)
Theorem new_day_allows_again (today : string) (a : Z) (s : SpendingLimits.t) :
  today <> SpendingLimits.lastResetDate s ->
  a <= SpendingLimits.maxPerTx s ->
  a <= SpendingLimits.maxDaily s ->
  SpendingLimits.allowed (fst (ledger_check' today a s)) = true
  /\ SpendingLimits.remainingDaily (fst (ledger_check' today a s))
     = SpendingLimits.maxDaily s - a.
Proof.
  intros Hne Hp Hd.
  pose proof (check_allowed toFixed4 today a s) as H. cbv zeta in H.
  rewrite (maybeResetDaily_new_day today s Hne) in H.
  cbn [SpendingLimits.dailySpend] in H.
  rewrite H by lia. cbn. split; [reflexivity | lia].
Qed.

(** X7.  [resetDailySpend] gives the whole allowance back: right after it
    the spend is zero and, the same day, [check] allows exactly the amounts
    that exceed neither cap. *)
Theorem resetDailySpend_restores (today : string) (a : Z) (s : SpendingLimits.t) :
  let s' := SpendingLimits.resetDailySpend today s in
  SpendingLimits.status_dailySpend (fst (SpendingLimits.getStatus today s')) = 0
  /\ (SpendingLimits.allowed (fst (ledger_check' today a s')) = true
      <-> a <= SpendingLimits.maxPerTx s /\ a <= SpendingLimits.maxDaily s).
Proof.
  intros s'.
  assert (SpendingLimits.maybeResetDaily today s' = s') as E
    by (apply maybeResetDaily_today; reflexivity).
  split.
  - unfold SpendingLimits.getStatus. rewrite E. reflexivity.
  - unfold SpendingLimits.check. rewrite E. subst s'.
    cbn [SpendingLimits.resetDailySpend SpendingLimits.maxPerTx
         SpendingLimits.maxDaily SpendingLimits.dailySpend].
    destruct (Z.gtb_spec a (SpendingLimits.maxPerTx s)); cbn [fst SpendingLimits.allowed].
    + split; [discriminate | lia].
    + destruct (Z.gtb_spec (0 + a) (SpendingLimits.maxDaily s));
        cbn [fst SpendingLimits.allowed].
      * split; [discriminate | lia].
      * split; [intros _; lia | reflexivity].
Qed.

End LedgerUse.

(** * Further properties of the classifier *)

Section ClassifierUse.

Import ContractAllowlist.

Lemma elem_of_lowered (addr : string) (addrs : list string) :
  In addr addrs -> Js.toLowerCase addr ∈ lowered addrs.
Proof.
  intros H. unfold lowered. apply elem_of_list_to_set, list_elem_of_In.
  apply in_map, H.
Qed.

Lemma check_contractAddress (addr : string) (a : ContractAllowlist.t) :
  contractAddress (check addr a) = addr.
Proof.
  unfold check.
  destruct (bool_decide _); [reflexivity|].
  destruct (_ && _); [reflexivity|].
  destruct (allowlist a) as [al|]; [|reflexivity].
  destruct (bool_decide _); reflexivity.
Qed.

(** X8.  [addToBlocklist] takes effect at once and for every spelling: after
    it, the address, written in any mix of cases, is [blocked] with the
    blocked reason, whatever the allow list and the system contracts
    say. *)
Theorem addToBlocklist_blocks (a : ContractAllowlist.t) (addr addr' : string) :
  Js.toLowerCase addr' = Js.toLowerCase addr ->
  check addr' (addToBlocklist addr a)
  = {| allowed := false;
       reason := Some ("Contract " ++ addr' ++ " is blocked (malicious or user-blocked)");
       contractAddress := addr';
       status := blocked |}.
Proof.
  intros E. unfold check, addToBlocklist. cbn [blocklist]. rewrite E.
  rewrite bool_decide_eq_true_2 by set_solver. reflexivity.
Qed.

(** X9.  [addToBlocklist] touches one address only: an address that differs
    from the blocked one by more than case is classified as before. *)
Theorem addToBlocklist_frame (a : ContractAllowlist.t) (addr addr' : string) :
  Js.toLowerCase addr' <> Js.toLowerCase addr ->
  check addr' (addToBlocklist addr a) = check addr' a.
Proof.
  intros Hne. unfold check, addToBlocklist.
  cbn [blocklist allowSystemContracts systemContracts allowlist].
  rewrite (bool_decide_ext (Js.toLowerCase addr' ∈ {[Js.toLowerCase addr]} ∪ blocklist a)
             (Js.toLowerCase addr' ∈ blocklist a)) by set_solver.
  reflexivity.
Qed.

(** X10.  [addToAllowlist] works in allow-list mode only.  In default-allow
    mode it returns [false] and changes nothing.  In allow-list mode it
    returns [true], leaves the block list alone, and the address is then
    allowed in every spelling unless it is blocked; an address other than
    the added one is classified as before. *)
Theorem addToAllowlist_modes (a : ContractAllowlist.t) (addr : string) :
  (allowlist a = None -> addToAllowlist addr a = (false, a))
  /\ (forall al, allowlist a = Some al ->
        let a' := snd (addToAllowlist addr a) in
        fst (addToAllowlist addr a) = true
        /\ blocklist a' = blocklist a
        /\ (forall addr', Js.toLowerCase addr' = Js.toLowerCase addr ->
              Js.toLowerCase addr ∉ blocklist a ->
              allowed (check addr' a') = true)
        /\ (forall addr', Js.toLowerCase addr' <> Js.toLowerCase addr ->
              check addr' a' = check addr' a)).
Proof.
  split.
  - intros H. unfold addToAllowlist. rewrite H. reflexivity.
  - intros al H a'. subst a'. unfold addToAllowlist. rewrite H.
    cbn [fst snd blocklist]. split_and!; [reflexivity | reflexivity | |].
    + intros addr' E Hb. unfold check.
      cbn [blocklist allowSystemContracts systemContracts allowlist]. rewrite E.
      rewrite (bool_decide_eq_false_2 _ Hb).
      destruct (_ && _); [reflexivity|].
      rewrite bool_decide_eq_true_2 by set_solver. reflexivity.
    + intros addr' Hne. unfold check.
      cbn [blocklist allowSystemContracts systemContracts allowlist]. rewrite H.
      rewrite (bool_decide_ext (Js.toLowerCase addr' ∈ {[Js.toLowerCase addr]} ∪ al)
                 (Js.toLowerCase addr' ∈ al)) by set_solver.
      reflexivity.
Qed.

(** X11.  [checkAll] answers address by address, in the order given: the
    results carry the addresses of the input, spelled as they were
    passed. *)
Theorem checkAll_preserves_order (addrs : list string) (a : ContractAllowlist.t) :
  map contractAddress (checkAll addrs a) = addrs.
Proof.
  unfold checkAll. induction addrs as [|addr addrs IH]; [reflexivity|].
  cbn [map]. rewrite check_contractAddress, IH. reflexivity.
Qed.

(** X12.  What the configuration blocks stays blocked: for every
    configuration, a known malicious contract and every contract of
    [blockedContracts] is [blocked] in every spelling, also when the same
    address is listed in [allowedContracts]. *)
Theorem configured_blocks_always_blocked (config : AllowlistConfig)
    (addr addr' : string) :
  In addr (KNOWN_MALICIOUS_CONTRACTS
           ++ match blockedContracts config with Some l => l | None => [] end)%list ->
  Js.toLowerCase addr' = Js.toLowerCase addr ->
  status (check addr' (constructor config)) = blocked
  /\ allowed (check addr' (constructor config)) = false.
Proof.
  intros Hin E. unfold check. rewrite E.
  rewrite bool_decide_eq_true_2; [split; reflexivity|].
  cbn [constructor blocklist]. apply elem_of_lowered, Hin.
Qed.

(** X13.  The verdict is coherent: a result is allowed exactly when its
    status is [allowed] or [system_safe], and it carries a reason exactly
    when it is not allowed. *)
Theorem classification_coherent (addr : string) (a : ContractAllowlist.t) :
  let r := check addr a in
  (allowed r = true <-> status r = allowed_status \/ status r = system_safe)
  /\ (allowed r = false <-> status r = blocked \/ status r = not_in_allowlist)
  /\ (allowed r = false <-> exists m, reason r = Some m).
Proof.
  intros r. subst r. unfold check.
  destruct (bool_decide _); [|destruct (_ && _);
    [|destruct (allowlist a) as [al|]; [destruct (bool_decide _)|]]];
    cbn [allowed status reason];
    (split_and!; split;
     [intros H | intros H | intros H | intros H | intros H | intros H]);
    try reflexivity; try discriminate H; eauto;
    try (destruct H as [H | H]; discriminate H);
    try (destruct H as [m H]; discriminate H).
Qed.

End ClassifierUse.

(** * Further properties of the simulator *)

Section SimulatorUse.

Import Host.

Context {W : Type}.
Variable handler : forall X : Type, event X -> W -> X * W.
Variable toLocaleString : Z -> string.

Abbreviation sim_simulate' := (TransactionSimulator.simulate toLocaleString).

Lemma retry_loop_backoff (p : CallParameters) (m : Z) (remaining : nat) :
  forall (i : Z) (last : Js.thrown) (w : W),
    (remaining = 0%nat \/ i + Z.of_nat remaining = m) ->
    0 <= i ->
    let tr := snd (run handler
                     (TransactionSimulator.retry_loop m (trigger (ClientCall p))
                        remaining i last) w) in
    Trace.sleeps tr
    = map (fun j => 100 * (i + Z.of_nat j + 1)) (seq 0 (call_count tr - 1)).
Proof.
  induction remaining as [|remaining IH]; intros i last w Hm Hi tr; subst tr;
    cbn [TransactionSimulator.retry_loop].
  - reflexivity.
  - destruct Hm as [Hm | Hm]; [discriminate Hm|].
    rewrite run_bind, run_trigger.
    destruct (handler _ (ClientCall p) w) as [[v | e] w1]; cbn [fst snd].
    + reflexivity.
    + set (last' := match e with
                     | Js.ThrownError _ => e
                     | Js.ThrownOther => Js.ThrownError "Unknown error"
                     end).
      destruct (Z.ltb_spec i (m - 1)) as [Hlt | Hge].
      * rewrite run_bind, run_trigger.
        destruct (handler _ (Sleep (100 * (i + 1))) w1) as [[] w2]; cbn [fst snd].
        assert (1 <= remaining)%nat as Hrem by lia.
        pose proof (retry_loop_attempts handler p m remaining (i + 1) last' w2 Hrem)
          as Hcalls.
        specialize (IH (i + 1) last' w2). cbv zeta in IH.
        destruct (run handler _ w2) as [[r w3] tr]. cbn [fst snd] in *.
        unfold Trace.sleeps, call_count in *. cbn.
        rewrite IH by lia.
        destruct (length (List.filter is_call tr)) as [|n]; [lia|].
        cbn [Nat.sub seq map]. rewrite Nat.sub_0_r.
        f_equal; [f_equal; lia|].
        rewrite <- seq_shift, map_map.
        apply map_ext. intros j. f_equal. lia.
      * destruct remaining as [|remaining]; [|lia].
        cbn [TransactionSimulator.retry_loop run fst snd]. reflexivity.
Qed.

(** X14.  The back-off of the retry loop is linear and only between
    attempts: in every world, the delays slept by [simulateWithRetry] are
    100 ms, 200 ms, ... one after each failed attempt that is followed by
    another, so one less than the number of calls, and none after the last
    attempt. *)
Theorem backoff_between_attempts (sim : TransactionSimulator.t)
    (p : CallParameters) (w : W) :
  let tr := snd (run handler
                   (TransactionSimulator.simulateWithRetry sim
                      (trigger (ClientCall p))) w) in
  Trace.sleeps tr = map Trace.backoff (seq 0 (call_count tr - 1)).
Proof.
  intros tr. subst tr. unfold TransactionSimulator.simulateWithRetry.
  rewrite (retry_loop_backoff p (TransactionSimulator.maxRetries sim)
             (Z.to_nat (TransactionSimulator.maxRetries sim)) 0 Js.ThrownOther w).
  - apply map_ext. intros j. unfold Trace.backoff. f_equal.
  - destruct (Z_le_gt_dec (TransactionSimulator.maxRetries sim) 0); [left | right]; lia.
  - lia.
Qed.

Lemma retry_loop_persistent (p : CallParameters) (m : Z) (e : Js.thrown)
    (remaining : nat) :
  (forall w, fst (handler _ (ClientCall p) w) = Js.Rejected e) ->
  forall (i : Z) (last : Js.thrown) (w : W),
    fst (fst (run handler
                (TransactionSimulator.retry_loop m (trigger (ClientCall p))
                   (S remaining) i last) w))
    = Js.Rejected (match e with
                   | Js.ThrownError _ => e
                   | Js.ThrownOther => Js.ThrownError "Unknown error"
                   end).
Proof.
  intros Hfail. induction remaining as [|remaining IH]; intros i last w.
  - cbn [TransactionSimulator.retry_loop].
    rewrite run_bind, run_trigger.
    pose proof (Hfail w) as Hw.
    destruct (handler _ (ClientCall p) w) as [r w1]. cbn [fst snd] in *. subst r.
    destruct (i <? m - 1).
    + rewrite run_bind, run_trigger.
      destruct (handler _ (Sleep _) w1) as [[] w2]. reflexivity.
    + reflexivity.
  - remember (S remaining) as n eqn:En.
    cbn [TransactionSimulator.retry_loop].
    rewrite run_bind, run_trigger.
    pose proof (Hfail w) as Hw.
    destruct (handler _ (ClientCall p) w) as [r w1]. cbn [fst snd] in *. subst r.
    destruct (i <? m - 1).
    + rewrite run_bind, run_trigger.
      destruct (handler _ (Sleep _) w1) as [[] w2]. cbn [fst snd].
      subst n. specialize (IH (i + 1)
                             (match e with
                              | Js.ThrownError _ => e
                              | Js.ThrownOther => Js.ThrownError "Unknown error"
                              end) w2).
      destruct (run handler _ w2) as [[r w3] tr]. cbn [fst snd] in *. exact IH.
    + subst n. specialize (IH (i + 1)
                             (match e with
                              | Js.ThrownError _ => e
                              | Js.ThrownOther => Js.ThrownError "Unknown error"
                              end) w1).
      destruct (run handler _ w1) as [[r w3] tr]. cbn [fst snd] in *. exact IH.
Qed.

(** X15.  A call that keeps failing is classified from the text of its
    error, compared in lower case: [insufficient funds] first, then
    [revert], else the message is wrapped; a thrown value that is not an
    [Error] is reported as an unknown error.  The result is a failure
    without gas or return data. *)
Theorem persistent_failure_classified (sim : TransactionSimulator.t)
    (tx : TransactionRequest) (signer : option string) (e : Js.thrown) (w : W) :
  1 <= TransactionSimulator.maxRetries sim ->
  (forall w, fst (handler _ (ClientCall (TransactionSimulator.call_parameters tx)) w)
             = Js.Rejected e) ->
  let message := match e with
                 | Js.ThrownError m => m
                 | Js.ThrownOther => "Unknown error"
                 end in
  fst (fst (run handler (sim_simulate' sim tx signer) w))
  = if Js.includes "insufficient funds" (Js.toLowerCase message) then
      {| TransactionSimulator.success := false;
         TransactionSimulator.error := Some "Transaction would fail: insufficient funds";
         TransactionSimulator.gasUsed := None;
         TransactionSimulator.returnData := None;
         TransactionSimulator.warnings := ["Check ETH balance and gas requirements"] |}
    else if Js.includes "revert" (Js.toLowerCase message) then
      {| TransactionSimulator.success := false;
         TransactionSimulator.error := Some "Transaction would revert";
         TransactionSimulator.gasUsed := None;
         TransactionSimulator.returnData := None;
         TransactionSimulator.warnings := ["Contract execution would fail"] |}
    else
      {| TransactionSimulator.success := false;
         TransactionSimulator.error := Some ("Simulation failed: " ++ message);
         TransactionSimulator.gasUsed := None;
         TransactionSimulator.returnData := None;
         TransactionSimulator.warnings := [] |}.
Proof.
  intros Hmax Hfail message.
  unfold TransactionSimulator.simulate, TransactionSimulator.simulateWithRetry.
  rewrite run_bind.
  destruct (Z.to_nat (TransactionSimulator.maxRetries sim)) as [|n] eqn:En; [lia|].
  pose proof (retry_loop_persistent (TransactionSimulator.call_parameters tx)
                (TransactionSimulator.maxRetries sim) e n Hfail 0 Js.ThrownOther w)
    as Hloop.
  destruct (run handler (TransactionSimulator.retry_loop _ _ _ _ _) w)
    as [[r w1] tr1]. cbn [fst snd] in Hloop. subst r.
  destruct e as [m|]; subst message; cbn [fst snd].
  - destruct (Js.includes "insufficient funds" (Js.toLowerCase m)); [reflexivity|].
    destruct (Js.includes "revert" (Js.toLowerCase m)); reflexivity.
  - reflexivity.
Qed.

(** X16.  A retry budget below zero makes the simulator fail closed: with
    [maxRetries < 0] no call is attempted and [simulate] reports a failure
    with an unknown-error message; a configured budget of zero stands for
    the default of two attempts. *)
Theorem negative_budget_fails_closed (rpcUrl : option string)
    (chain : option TransactionSimulator.chain_t) (n : Z)
    (tx : TransactionRequest) (signer : option string) (w : W) :
  let sim := TransactionSimulator.constructor
               {| TransactionSimulator.config_rpcUrl := rpcUrl;
                  TransactionSimulator.config_chain := chain;
                  TransactionSimulator.config_maxRetries := Some n |} in
  (n = 0 -> TransactionSimulator.maxRetries sim = 2)
  /\ (n < 0 ->
      run handler (sim_simulate' sim tx signer) w
      = ({| TransactionSimulator.success := false;
            TransactionSimulator.error :=
              Some "Simulation failed: Unknown simulation error";
            TransactionSimulator.gasUsed := None;
            TransactionSimulator.returnData := None;
            TransactionSimulator.warnings := [] |}, w, [])).
Proof.
  intros sim. split.
  - intros ->. reflexivity.
  - intros Hneg. subst sim.
    unfold TransactionSimulator.simulate, TransactionSimulator.simulateWithRetry.
    cbn [TransactionSimulator.constructor TransactionSimulator.maxRetries
         TransactionSimulator.config_maxRetries].
    destruct (Z.eqb_spec n 0); [lia|].
    replace (Z.to_nat n) with 0%nat by lia.
    reflexivity.
Qed.

End SimulatorUse.

(** * Retries, estimates and the calldata scan *)

Section Estimates.

Import Host.

Variable toLocaleString : Z -> string.

Lemma retry_loop_scripted (p : CallParameters) (m : Z) (v : CallReturn)
    (rest : list (Js.outcome CallReturn)) (errors : list Js.thrown) :
  forall (remaining : nat) (i : Z) (last : Js.thrown),
    (length errors < remaining)%nat ->
    let R := run ExampleWorld.scripted
               (TransactionSimulator.retry_loop m (trigger (ClientCall p))
                  remaining i last)
               (app (map Js.Rejected errors) (Js.Resolved v :: rest)) in
    fst (fst R) = Js.Resolved v
    /\ snd (fst R) = rest
    /\ call_count (snd R) = S (length errors).
Proof.
  induction errors as [|e errors IH]; intros remaining i last Hlen R; subst R;
    (destruct remaining as [|remaining]; [cbn in Hlen; lia|]);
    cbn [TransactionSimulator.retry_loop].
  - rewrite run_bind, run_trigger. cbn. split_and!; reflexivity.
  - rewrite run_bind, run_trigger. cbn [map app ExampleWorld.scripted fst snd].
    set (last' := match e with
                   | Js.ThrownError _ => e
                   | Js.ThrownOther => Js.ThrownError "Unknown error"
                   end).
    cbn [length] in Hlen.
    specialize (IH remaining (i + 1) last' ltac:(lia)). cbv zeta in IH.
    destruct (i <? m - 1).
    + rewrite run_bind, run_trigger. cbn [ExampleWorld.scripted fst snd].
      destruct (run ExampleWorld.scripted _ _) as [[r w3] tr]. cbn [fst snd] in *.
      destruct IH as (-> & -> & Hc).
      split_and!; [reflexivity | reflexivity |].
      unfold call_count in *. cbn. rewrite Hc. reflexivity.
    + destruct (run ExampleWorld.scripted _ _) as [[r w3] tr]. cbn [fst snd] in *.
      destruct IH as (-> & -> & Hc).
      split_and!; [reflexivity | reflexivity |].
      unfold call_count in *. cbn. rewrite Hc. reflexivity.
Qed.

(** X17.  Transient failures are recovered from within the budget: on a
    chain whose [call] fails [k] times, with any errors, and then answers,
    [simulate] succeeds with the answer's data after exactly [k + 1] calls,
    provided [k] is less than [maxRetries]. *)
Theorem transient_failures_recovered (sim : TransactionSimulator.t)
    (tx : TransactionRequest) (signer : option string) (errors : list Js.thrown)
    (v : CallReturn) (rest : list (Js.outcome CallReturn)) :
  (length errors < Z.to_nat (TransactionSimulator.maxRetries sim))%nat ->
  let R := run ExampleWorld.scripted
             (TransactionSimulator.simulate toLocaleString sim tx signer)
             (app (map Js.Rejected errors) (Js.Resolved v :: rest)) in
  TransactionSimulator.success (fst (fst R)) = true
  /\ TransactionSimulator.returnData (fst (fst R)) = return_data v
  /\ call_count (snd R) = S (length errors).
Proof.
  intros Hlen R. subst R.
  destruct (simulate_run ExampleWorld.scripted toLocaleString sim tx signer
              (app (map Js.Rejected errors) (Js.Resolved v :: rest)))
    as (Hcount & _ & Hres).
  cbv zeta in Hcount, Hres.
  unfold TransactionSimulator.simulateWithRetry in *.
  destruct (retry_loop_scripted (TransactionSimulator.call_parameters tx)
              (TransactionSimulator.maxRetries sim) v rest errors
              (Z.to_nat (TransactionSimulator.maxRetries sim)) 0 Js.ThrownOther Hlen)
    as (Hr & _ & Hc).
  destruct (Hres v Hr) as (Hs & Hd & _).
  rewrite Hcount, Hc. split_and!; [exact Hs | exact Hd | reflexivity].
Qed.

Context {W : Type}.
Variable handler : forall X : Type, event X -> W -> X * W.

(** X18.  With a gas limit given, [estimateSpend] asks the chain for the
    gas price only and charges the given gas: the estimate is the value
    plus the price (1 gwei when the query fails) times [tx.gas].  A gas
    limit of [0n] counts as none: the transaction is estimated like the
    same transaction without [gas], so a zero limit never yields a zero
    gas cost. *)
Theorem estimateSpend_given_gas (sim : TransactionSimulator.t)
    (tx : TransactionRequest) (payer : string) (w : W) :
  let R := run handler
             (TransactionSimulator.estimateSpend toLocaleString sim tx payer) w in
  let r := fst (fst R) in
  (forall g, gas tx = Some g -> g <> 0 ->
     snd R = [Obs ClientGetGasPrice (fst (handler _ ClientGetGasPrice w))]
     /\ TransactionSimulator.gasPrice r
        = match fst (handler _ ClientGetGasPrice w) with
          | Js.Resolved p => p
          | Js.Rejected _ => 1000000000
          end
     /\ TransactionSimulator.estimatedSpend r
        = TransactionSimulator.or_default (value tx) 0
          + TransactionSimulator.gasPrice r * g)
  /\ (gas tx = Some 0 ->
      R = run handler
            (TransactionSimulator.estimateSpend toLocaleString sim
               {| to := to tx; data := data tx; value := value tx;
                  gas := None; from := from tx |} payer) w).
Proof.
  intros R r. subst r R. split.
  - intros g Hg Hnz. unfold TransactionSimulator.estimateSpend.
    rewrite run_bind, run_trigger.
    destruct (handler _ ClientGetGasPrice w) as [p w1]. cbn [fst snd].
    unfold TransactionSimulator.wants_gas_estimate, TransactionSimulator.or_default.
    rewrite Hg. cbn [Js.truthy_bigint].
    destruct (Z.eqb_spec g 0) as [|_]; [contradiction|].
    cbn [negb andb run bind fst snd app
         TransactionSimulator.gasPrice TransactionSimulator.estimatedSpend].
    split_and!; reflexivity.
  - intros Hzero. unfold TransactionSimulator.estimateSpend,
      TransactionSimulator.wants_gas_estimate, TransactionSimulator.has_calldata,
      TransactionSimulator.estimate_parameters.
    rewrite Hzero. reflexivity.
Qed.

(** X19.  Without a reachable node [estimateSpend] still returns a number:
    when the gas price query and the gas estimate both fail, the estimate
    is the value plus 1 gwei times 100000 gas for a transaction with
    calldata, 21000 gas otherwise, and both fallbacks are reported as
    warnings, in that order. *)
Theorem estimateSpend_offline_fallback (sim : TransactionSimulator.t)
    (tx : TransactionRequest) (payer : string) (w w1 w2 : W) (e1 e2 : Js.thrown) :
  TransactionSimulator.wants_gas_estimate tx = true ->
  handler _ ClientGetGasPrice w = (Js.Rejected e1, w1) ->
  handler _ (ClientEstimateGas (TransactionSimulator.estimate_parameters tx)) w1
  = (Js.Rejected e2, w2) ->
  let r := fst (fst (run handler
                       (TransactionSimulator.estimateSpend toLocaleString sim tx payer)
                       w)) in
  TransactionSimulator.estimatedSpend r
  = TransactionSimulator.or_default (value tx) 0
    + 1000000000 * (if TransactionSimulator.has_calldata tx then 100000 else 21000)
  /\ TransactionSimulator.gasPrice r = 1000000000
  /\ firstn 2 (TransactionSimulator.estimate_warnings r)
     = ["Could not fetch gas price, using default 1 gwei";
        "Could not estimate gas, using default"].
Proof.
  intros Hwants Hgp Hge r. subst r.
  unfold TransactionSimulator.estimateSpend.
  rewrite run_bind, run_trigger, Hgp. cbn [fst snd].
  rewrite run_bind, Hwants, run_bind, run_trigger, Hge.
  cbn [fst snd run TransactionSimulator.estimatedSpend TransactionSimulator.gasPrice
       TransactionSimulator.estimate_warnings].
  split_and!; [reflexivity | reflexivity |].
  destruct (data tx) as [d|];
    [destruct (negb (d =? "")%string && TransactionSimulator.isHighRiskTransaction d)|];
    destruct (TransactionSimulator.has_calldata tx);
    cbn [Z.gtb Z.compare Pos.compare Pos.compare_cont];
    destruct (TransactionSimulator.or_default (value tx) 0 =? 0);
    reflexivity.
Qed.

End Estimates.

Section Scan.

Lemma toLowerCase_length (s : string) :
  String.length (Js.toLowerCase s) = String.length s.
Proof. induction s as [|c s IH]; cbn; congruence. Qed.

Lemma substring_length_le (n m : nat) (s : string) :
  (String.length (String.substring n m s) <= String.length s)%nat.
Proof.
  revert n m. induction s as [|c s IH]; intros n m.
  - destruct n, m; cbn; lia.
  - destruct n as [|n].
    + destruct m as [|m]; cbn; [lia|]. specialize (IH 0%nat m). lia.
    + cbn. specialize (IH n m). lia.
Qed.

(** X20.  Calldata shorter than a selector is never flagged: for data of
    fewer than ten characters ([0x] and eight digits) [checkCalldata]
    returns no warning and [isHighRiskTransaction] is false. *)
Theorem short_calldata_no_warnings (data : string) :
  (String.length data < 10)%nat ->
  TransactionFirewall.checkCalldata data = []
  /\ TransactionSimulator.isHighRiskTransaction data = false.
Proof.
  intros Hlen.
  assert (String.length (Js.toLowerCase (Js.slice 0 10 data)) < 10)%nat as Hsel.
  { rewrite toLowerCase_length. unfold Js.slice.
    pose proof (substring_length_le 0 (10 - 0) data). lia. }
  assert (forall k, String.length k = 10%nat ->
                    Js.toLowerCase (Js.slice 0 10 data) <> k) as Hne.
  { intros k Hk E. rewrite E in Hsel. lia. }
  split.
  - unfold TransactionFirewall.checkCalldata, TransactionFirewall.SUSPICIOUS_SELECTORS.
    cbn [list_to_map foldr fst snd uncurry].
    rewrite !lookup_insert_ne, lookup_empty
      by (intros E; symmetry in E; revert E; apply Hne; reflexivity).
    destruct (String.eqb_spec (Js.toLowerCase (Js.slice 0 10 data)) "0x095ea7b3")
      as [E | _]; [exfalso; revert E; apply Hne; reflexivity|].
    reflexivity.
  - unfold TransactionSimulator.isHighRiskTransaction,
      TransactionSimulator.HIGH_RISK_SELECTORS.
    cbn [existsb].
    repeat (match goal with
            | |- context [String.eqb ?a ?b] =>
                destruct (String.eqb_spec a b) as [E | _];
                [exfalso; revert E; apply Hne; reflexivity|]
            end).
    reflexivity.
Qed.

End Scan.

(** * Further properties of the pipeline *)

Section PipelineUse.

Import Host.

Context {W : Type}.
Variable handler : forall X : Type, event X -> W -> X * W.
Variable toFixed4 : Z -> string.
Variable toLocaleString : Z -> string.

Abbreviation fw_check' := (TransactionFirewall.check toFixed4 toLocaleString).

Lemma ledger_allowed_inv (today : string) (a : Z) (s : SpendingLimits.t) :
  SpendingLimits.allowed (fst (SpendingLimits.check toFixed4 today a s)) = true ->
  a <= SpendingLimits.maxPerTx s
  /\ SpendingLimits.dailySpend (SpendingLimits.maybeResetDaily today s) + a
     <= SpendingLimits.maxDaily s.
Proof.
  intros H.
  destruct (Z_le_gt_dec a (SpendingLimits.maxPerTx s)) as [Hle | Hgt].
  - destruct (Z_le_gt_dec
                (SpendingLimits.dailySpend (SpendingLimits.maybeResetDaily today s) + a)
                (SpendingLimits.maxDaily s)) as [Hfit | Hover]; [lia|].
    rewrite (check_daily toFixed4 today a s Hle Hover) in H. discriminate H.
  - rewrite (check_per_tx toFixed4 today a s Hgt) in H. discriminate H.
Qed.

Lemma ledger_rejected_reason (today : string) (a : Z) (s : SpendingLimits.t) :
  SpendingLimits.allowed (fst (SpendingLimits.check toFixed4 today a s)) = false ->
  exists m, SpendingLimits.reason (fst (SpendingLimits.check toFixed4 today a s)) = Some m.
Proof.
  unfold SpendingLimits.check.
  destruct (_ >? _); [eauto|]. destruct (_ >? _); [eauto|]. discriminate.
Qed.

Lemma classifier_rejected_reason (addr : string) (a : ContractAllowlist.t) :
  ContractAllowlist.allowed (ContractAllowlist.check addr a) = false ->
  exists m, ContractAllowlist.reason (ContractAllowlist.check addr a) = Some m.
Proof.
  unfold ContractAllowlist.check.
  destruct (bool_decide _); [eauto|].
  destruct (_ && _); [discriminate|].
  destruct (ContractAllowlist.allowlist a) as [al|]; [|discriminate].
  destruct (bool_decide _); [discriminate | eauto].
Qed.

(** Every branch of [check], one goal each, with the runs of the stages
    named. *)
Ltac check_cases fw tx w :=
  unfold TransactionFirewall.check;
  destruct (List.find _ (ContractAllowlist.checkAll
                           (TransactionSimulator.extractContractAddresses tx)
                           (TransactionFirewall.allowlist fw)))
    as [blockedContract|] eqn:Hfind;
  [ cbn [run fst snd]
  | destruct (Js.truthy_string (TransactionFirewall.payerAddress fw)) eqn:Hpayer;
    [ rewrite run_bind;
      let spend := fresh "spend" in
      let w1 := fresh "w1" in
      let tr1 := fresh "tr1" in
      destruct (run handler (TransactionSimulator.estimateSpend _ _ _ _) w)
        as [[spend w1] tr1] eqn:Hspend;
      rewrite run_bind, run_trigger;
      let today := fresh "today" in
      let w2 := fresh "w2" in
      destruct (handler _ GetTodayDate w1) as [today w2] eqn:Htoday;
      cbn [fst snd];
      destruct (SpendingLimits.allowed
                  (fst (SpendingLimits.check toFixed4 today
                          (TransactionSimulator.estimatedSpend spend)
                          (TransactionFirewall.limits fw)))) eqn:Hlimit;
      cbn [negb];
      [ unfold TransactionFirewall.check_after_spend;
        cbn [TransactionFirewall.with_limits TransactionFirewall.requireSimulation];
        destruct (TransactionFirewall.requireSimulation fw) eqn:Hsim;
        [ rewrite run_bind;
          let sr := fresh "sr" in
          let w3 := fresh "w3" in
          let tr3 := fresh "tr3" in
          destruct (run handler (TransactionFirewall.simulate _ _ _) w2)
            as [[sr w3] tr3] eqn:Hrun;
          destruct (TransactionSimulator.success sr) eqn:Hsuccess;
          cbn [negb run fst snd]
        | cbn [run fst snd] ]
      | cbn [run fst snd] ]
    | unfold TransactionFirewall.check_after_spend;
      destruct (TransactionFirewall.requireSimulation fw) eqn:Hsim;
      [ rewrite run_bind;
        let sr := fresh "sr" in
        let w3 := fresh "w3" in
        let tr3 := fresh "tr3" in
        destruct (run handler (TransactionFirewall.simulate _ _ _) w)
          as [[sr w3] tr3] eqn:Hrun;
        destruct (TransactionSimulator.success sr) eqn:Hsuccess;
        cbn [negb run fst snd]
      | cbn [run fst snd] ] ] ].

(** X21.  An acceptance is backed by every stage that applies: when [check]
    allows a transaction, its destination is classified as allowed; with a
    payer configured the estimated spend is within the per-transaction cap
    and fits in what is left of the day; with simulation required the
    simulation succeeded. *)
Theorem accepted_decision_sound (fw : TransactionFirewall.t)
    (tx : TransactionRequest) (w : W) :
  let res := fst (fst (fst (run handler (fw_check' fw tx) w))) in
  let fw' := snd (fst (fst (run handler (fw_check' fw tx) w))) in
  TransactionFirewall.allowed res = true ->
  (forall addr, to tx = Some addr -> addr <> "" ->
     ContractAllowlist.allowed
       (ContractAllowlist.check addr (TransactionFirewall.allowlist fw)) = true)
  /\ (Js.truthy_string (TransactionFirewall.payerAddress fw) = true ->
      exists est,
        TransactionFirewall.estimatedSpend res = Some est
        /\ est <= SpendingLimits.maxPerTx (TransactionFirewall.limits fw)
        /\ SpendingLimits.dailySpend (TransactionFirewall.limits fw') + est
           <= SpendingLimits.maxDaily (TransactionFirewall.limits fw))
  /\ (TransactionFirewall.requireSimulation fw = true ->
      exists sim,
        TransactionFirewall.simulationResult res = Some sim
        /\ TransactionSimulator.success sim = true).
Proof.
  intros res fw'. subst res fw'.
  assert (List.find (fun c => negb (ContractAllowlist.allowed c))
            (ContractAllowlist.checkAll
               (TransactionSimulator.extractContractAddresses tx)
               (TransactionFirewall.allowlist fw)) = None ->
          forall addr, to tx = Some addr -> addr <> "" ->
            ContractAllowlist.allowed
              (ContractAllowlist.check addr (TransactionFirewall.allowlist fw)) = true)
    as Hdest.
  { intros Hnone addr Hto Hne.
    rewrite (contract_checks_of_destination fw tx addr Hto Hne) in Hnone.
    cbn in Hnone.
    destruct (ContractAllowlist.allowed _); [reflexivity | discriminate Hnone]. }
  check_cases fw tx w; cbn [TransactionFirewall.allowed]; intros Hok;
    try discriminate Hok;
    (split; [exact (Hdest eq_refl)|]);
    cbn [TransactionFirewall.estimatedSpend TransactionFirewall.simulationResult
         TransactionFirewall.limits TransactionFirewall.with_limits].
  - split; [|eauto]. intros _. eexists. split; [reflexivity|].
    rewrite check_state. apply ledger_allowed_inv, Hlimit.
  - split; [|discriminate]. intros _. eexists. split; [reflexivity|].
    rewrite check_state. apply ledger_allowed_inv, Hlimit.
  - split; [discriminate | eauto].
  - split; discriminate.
Qed.

(** X22.  A rejection always says why: whenever [check] does not allow a
    transaction, the decision carries a reason, whichever stage
    rejected. *)
Theorem rejection_has_reason (fw : TransactionFirewall.t)
    (tx : TransactionRequest) (w : W) :
  let res := fst (fst (fst (run handler (fw_check' fw tx) w))) in
  TransactionFirewall.allowed res = false ->
  exists m, TransactionFirewall.reason res = Some m.
Proof.
  intros res. subst res.
  check_cases fw tx w;
    cbn [TransactionFirewall.allowed TransactionFirewall.reason]; intros Hno;
    try discriminate Hno; eauto.
  - apply List.find_some in Hfind. destruct Hfind as [Hin Hrej].
    unfold ContractAllowlist.checkAll in Hin. apply in_map_iff in Hin.
    destruct Hin as (addr & <- & _).
    apply classifier_rejected_reason.
    destruct (ContractAllowlist.allowed _); [discriminate Hrej | reflexivity].
  - apply ledger_rejected_reason, Hlimit.
Qed.

(** X23.  [check] never records spend.  The firewall it leaves is the one
    it was given, or that firewall with the ledger rolled over to the day
    read: allow and block lists, simulator, flags and caps are untouched
    and the period spend is never increased. *)
Theorem check_never_records (fw : TransactionFirewall.t)
    (tx : TransactionRequest) (w : W) :
  let fw' := snd (fst (fst (run handler (fw_check' fw tx) w))) in
  fw' = fw
  \/ exists today,
       fw' = TransactionFirewall.with_limits fw
               (SpendingLimits.maybeResetDaily today (TransactionFirewall.limits fw)).
Proof.
  intros fw'. subst fw'.
  check_cases fw tx w; try (left; reflexivity);
    right; exists today; rewrite check_state; reflexivity.
Qed.

(** X24.  Without a payer the limits are not enforced: the decision does
    not depend on the ledger at all (a ledger whose cap is used up gives
    the same decision), no spend is estimated, and the firewall is left as
    it was. *)
Theorem no_payer_limits_unenforced (fw : TransactionFirewall.t)
    (tx : TransactionRequest) (w : W) (ledger : SpendingLimits.t) :
  Js.truthy_string (TransactionFirewall.payerAddress fw) = false ->
  let R := run handler (fw_check' fw tx) w in
  fst (fst (fst (run handler
                   (fw_check' (TransactionFirewall.with_limits fw ledger) tx) w)))
  = fst (fst (fst R))
  /\ TransactionFirewall.estimatedSpend (fst (fst (fst R))) = None
  /\ snd (fst (fst R)) = fw.
Proof.
  intros Hpayer' R. subst R.
  unfold TransactionFirewall.check.
  cbn [TransactionFirewall.with_limits TransactionFirewall.allowlist
       TransactionFirewall.payerAddress].
  rewrite Hpayer'.
  destruct (List.find _ _) as [blockedContract|]; [split_and!; reflexivity|].
  unfold TransactionFirewall.check_after_spend, TransactionFirewall.simulate.
  cbn [TransactionFirewall.requireSimulation TransactionFirewall.simulator
       TransactionFirewall.payerAddress TransactionFirewall.with_limits].
  destruct (TransactionFirewall.requireSimulation fw); [|split_and!; reflexivity].
  rewrite !run_bind.
  destruct (run handler (TransactionSimulator.simulate _ _ _ _) w) as [[sr w3] tr3].
  destruct (TransactionSimulator.success sr); split_and!; reflexivity.
Qed.

(** X25.  With simulation switched off, [check] never sends a [call]: the
    decision carries no simulation result and the only queries a check can
    make are those of the spend estimate. *)
Theorem no_simulation_no_call (fw : TransactionFirewall.t)
    (tx : TransactionRequest) (w : W) :
  TransactionFirewall.requireSimulation fw = false ->
  let R := run handler (fw_check' fw tx) w in
  call_count (snd R) = 0%nat
  /\ TransactionFirewall.simulationResult (fst (fst (fst R))) = None.
Proof.
  intros Hoff R. subst R.
  check_cases fw tx w; try congruence;
    cbn [TransactionFirewall.simulationResult]; (split; [|reflexivity]);
    try reflexivity;
    pose proof (estimateSpend_run handler toLocaleString
                  (TransactionFirewall.simulator fw) tx
                  (match TransactionFirewall.payerAddress fw with
                   | Some p => p
                   | None => ""
                   end) w) as (Hcalls & _);
    cbv zeta in Hcalls; rewrite Hspend in Hcalls; cbn [snd] in Hcalls;
    rewrite !call_count_app, Hcalls; reflexivity.
Qed.

(** X26.  A transaction without a destination (a contract creation) is not
    classified: its decision lists no contract and is the same whatever
    the allow and block lists hold, also in allow-list mode with an empty
    allow list. *)
Theorem contract_creation_not_classified (fw : TransactionFirewall.t)
    (tx : TransactionRequest) (w : W) (lists : ContractAllowlist.t) :
  to tx = None ->
  let res := fst (fst (fst (run handler (fw_check' fw tx) w))) in
  TransactionFirewall.contractsChecked res = Some []
  /\ fst (fst (fst (run handler
                      (fw_check' (TransactionFirewall.with_allowlist fw lists) tx) w)))
     = res.
Proof.
  intros Hto res. subst res.
  unfold TransactionFirewall.check, TransactionSimulator.extractContractAddresses.
  rewrite Hto.
  cbn [ContractAllowlist.checkAll map List.find
       TransactionFirewall.with_allowlist TransactionFirewall.payerAddress
       TransactionFirewall.simulator TransactionFirewall.limits].
  destruct (Js.truthy_string (TransactionFirewall.payerAddress fw)).
  - rewrite !run_bind.
    destruct (run handler (TransactionSimulator.estimateSpend _ _ _ _) w)
      as [[spend w1] tr1].
    rewrite !run_bind, !run_trigger.
    destruct (handler _ GetTodayDate w1) as [today w2]. cbn [fst snd].
    destruct (SpendingLimits.allowed _); cbn [negb]; [|split_and!; reflexivity].
    unfold TransactionFirewall.check_after_spend, TransactionFirewall.simulate.
    cbn [TransactionFirewall.requireSimulation TransactionFirewall.simulator
         TransactionFirewall.payerAddress TransactionFirewall.with_limits
         TransactionFirewall.with_allowlist].
    destruct (TransactionFirewall.requireSimulation fw); [|split_and!; reflexivity].
    rewrite !run_bind.
    destruct (run handler (TransactionSimulator.simulate _ _ _ _) w2) as [[sr w3] tr3].
    destruct (TransactionSimulator.success sr); split_and!; reflexivity.
  - unfold TransactionFirewall.check_after_spend, TransactionFirewall.simulate.
    cbn [TransactionFirewall.requireSimulation TransactionFirewall.simulator
         TransactionFirewall.payerAddress TransactionFirewall.with_allowlist].
    destruct (TransactionFirewall.requireSimulation fw); [|split_and!; reflexivity].
    rewrite !run_bind.
    destruct (run handler (TransactionSimulator.simulate _ _ _ _) w) as [[sr w3] tr3].
    destruct (TransactionSimulator.success sr); split_and!; reflexivity.
Qed.

(** X27.  [blockContract] and [check] compose: once a contract is blocked
    at run time, a transaction to it, in any spelling of the address, is
    rejected with the blocked reason before any query is made. *)
Theorem blockContract_then_rejected (fw : TransactionFirewall.t)
    (tx : TransactionRequest) (addr addr' : string) (w : W) :
  to tx = Some addr' -> addr' <> "" ->
  Js.toLowerCase addr' = Js.toLowerCase addr ->
  let fw' := TransactionFirewall.blockContract addr fw in
  let R := run handler (fw_check' fw' tx) w in
  TransactionFirewall.allowed (fst (fst (fst R))) = false
  /\ TransactionFirewall.reason (fst (fst (fst R)))
     = Some ("Contract " ++ addr' ++ " is blocked (malicious or user-blocked)")
  /\ snd (fst (fst R)) = fw'
  /\ snd R = [].
Proof.
  intros Hto Hne E fw' R. subst R.
  unfold TransactionFirewall.check.
  rewrite (contract_checks_of_destination fw' tx addr' Hto Hne).
  assert (ContractAllowlist.check addr' (TransactionFirewall.allowlist fw')
          = {| ContractAllowlist.allowed := false;
               ContractAllowlist.reason :=
                 Some ("Contract " ++ addr' ++ " is blocked (malicious or user-blocked)");
               ContractAllowlist.contractAddress := addr';
               ContractAllowlist.status := ContractAllowlist.blocked |}) as Hblocked.
  { subst fw'. unfold ContractAllowlist.check.
    cbn [TransactionFirewall.blockContract TransactionFirewall.with_allowlist
         TransactionFirewall.allowlist ContractAllowlist.addToBlocklist
         ContractAllowlist.blocklist].
    rewrite E, bool_decide_eq_true_2 by set_solver. reflexivity. }
  rewrite Hblocked. cbn. split_and!; reflexivity.
Qed.

End PipelineUse.

(** * The further properties at concrete inputs *)

Lemma day_boundary_resets_witness :
  let s := SpendingLimits.recordSpend "2026-01-01" (5 * ExampleHost.ETH)
             (TransactionFirewall.limits ExampleWorld.firewall) in
  SpendingLimits.currentDailySpend
    (fst (SpendingLimits.check ExampleHost.toFixed4 "2026-01-02" ExampleHost.ETH s)) = 0.
Proof.
  intros s.
  apply (day_boundary_resets ExampleHost.toFixed4 "2026-01-02" ExampleHost.ETH s).
  discriminate.
Defined.

Lemma check_monotone_witness :
  SpendingLimits.allowed
    (fst (SpendingLimits.check ExampleHost.toFixed4 "2026-01-01" (5 * 10 ^ 17)
            (TransactionFirewall.limits ExampleWorld.firewall))) = true.
Proof.
  apply (check_monotone ExampleHost.toFixed4 "2026-01-01" ExampleHost.ETH).
  - vm_compute. reflexivity.
  - vm_compute. discriminate.
Defined.

Lemma new_day_allows_again_witness :
  let s := SpendingLimits.recordSpend "2026-01-01" (10 * ExampleHost.ETH)
             (TransactionFirewall.limits ExampleWorld.firewall) in
  SpendingLimits.allowed
    (fst (SpendingLimits.check ExampleHost.toFixed4 "2026-01-01" ExampleHost.ETH s))
  = false
  /\ SpendingLimits.allowed
       (fst (SpendingLimits.check ExampleHost.toFixed4 "2026-01-02" ExampleHost.ETH s))
     = true.
Proof.
  intros s. split; [vm_compute; reflexivity|].
  apply (new_day_allows_again ExampleHost.toFixed4 "2026-01-02" ExampleHost.ETH s).
  - discriminate.
  - vm_compute. discriminate.
  - vm_compute. discriminate.
Defined.

Lemma addToBlocklist_blocks_witness :
  ContractAllowlist.status
    (ContractAllowlist.check OfflineWorld.payer_lower
       (ContractAllowlist.addToBlocklist ExampleWorld.payer
          (TransactionFirewall.allowlist ExampleWorld.firewall)))
  = ContractAllowlist.blocked.
Proof.
  rewrite (addToBlocklist_blocks (TransactionFirewall.allowlist ExampleWorld.firewall)
             ExampleWorld.payer OfflineWorld.payer_lower);
    reflexivity.
Defined.

Lemma addToBlocklist_frame_witness :
  ContractAllowlist.status
    (ContractAllowlist.check ExampleWorld.recipient
       (ContractAllowlist.addToBlocklist ExampleWorld.payer
          (TransactionFirewall.allowlist ExampleWorld.firewall)))
  = ContractAllowlist.allowed_status.
Proof.
  rewrite (addToBlocklist_frame (TransactionFirewall.allowlist ExampleWorld.firewall)
             ExampleWorld.payer ExampleWorld.recipient).
  - vm_compute. reflexivity.
  - vm_compute. discriminate.
Defined.

Lemma addToAllowlist_modes_witness :
  let strict := TransactionFirewall.allowlist
                  (TransactionFirewall.constructor "2026-01-01"
                     ExampleWorld.strict_config) in
  ContractAllowlist.addToAllowlist ExampleWorld.payer
    (TransactionFirewall.allowlist ExampleWorld.firewall)
  = (false, TransactionFirewall.allowlist ExampleWorld.firewall)
  /\ ContractAllowlist.allowed (ContractAllowlist.check ExampleWorld.payer strict) = false
  /\ ContractAllowlist.allowed
       (ContractAllowlist.check OfflineWorld.payer_lower
          (snd (ContractAllowlist.addToAllowlist ExampleWorld.payer strict))) = true.
Proof.
  intros strict. split_and!.
  - apply (addToAllowlist_modes (TransactionFirewall.allowlist ExampleWorld.firewall)
             ExampleWorld.payer). reflexivity.
  - vm_compute. reflexivity.
  - destruct (addToAllowlist_modes strict ExampleWorld.payer) as (_ & H).
    destruct (H ∅ eq_refl) as (_ & _ & Hallowed & _).
    apply Hallowed; [reflexivity|].
    apply (bool_decide_eq_false_1 _). vm_compute. reflexivity.
Defined.

Lemma configured_blocks_always_blocked_witness :
  ContractAllowlist.status
    (ContractAllowlist.check "0xbadc0debadc0debadc0debadc0debadc0debadc0"
       (ContractAllowlist.constructor
          {| ContractAllowlist.allowedContracts := Some [ExampleWorld.drainer];
             ContractAllowlist.blockedContracts := Some [ExampleWorld.drainer];
             ContractAllowlist.config_allowSystemContracts := None |}))
  = ContractAllowlist.blocked.
Proof.
  apply (configured_blocks_always_blocked
           {| ContractAllowlist.allowedContracts := Some [ExampleWorld.drainer];
              ContractAllowlist.blockedContracts := Some [ExampleWorld.drainer];
              ContractAllowlist.config_allowSystemContracts := None |}
           ExampleWorld.drainer).
  - right. left. reflexivity.
  - reflexivity.
Defined.

Lemma persistent_failure_classified_witness :
  TransactionSimulator.error
    (fst (fst (Host.run (OfflineWorld.refusing ExampleWorld.reverted)
                 (TransactionSimulator.simulate ExampleHost.toLocaleString
                    ExampleWorld.simulator
                    (ExampleWorld.transfer ExampleWorld.recipient (10 ^ 17)) None) tt)))
  = Some "Transaction would revert".
Proof.
  rewrite (persistent_failure_classified (OfflineWorld.refusing ExampleWorld.reverted)
             ExampleHost.toLocaleString ExampleWorld.simulator
             (ExampleWorld.transfer ExampleWorld.recipient (10 ^ 17)) None
             ExampleWorld.reverted tt).
  - vm_compute. reflexivity.
  - vm_compute. discriminate.
  - intros w. reflexivity.
Defined.

Lemma negative_budget_fails_closed_witness :
  snd (Host.run ExampleWorld.healthy
         (TransactionSimulator.simulate ExampleHost.toLocaleString
            (TransactionSimulator.constructor
               {| TransactionSimulator.config_rpcUrl := None;
                  TransactionSimulator.config_chain := None;
                  TransactionSimulator.config_maxRetries := Some (-1) |})
            (ExampleWorld.transfer ExampleWorld.recipient (10 ^ 17)) None) tt)
  = [].
Proof.
  destruct (negative_budget_fails_closed ExampleWorld.healthy
              ExampleHost.toLocaleString None None (-1)
              (ExampleWorld.transfer ExampleWorld.recipient (10 ^ 17)) None tt)
    as (_ & H).
  rewrite H; [reflexivity | reflexivity].
Defined.

Lemma transient_failures_recovered_witness :
  Host.call_count
    (snd (Host.run ExampleWorld.scripted
            (TransactionSimulator.simulate ExampleHost.toLocaleString
               ExampleWorld.simulator
               (ExampleWorld.transfer ExampleWorld.recipient (10 ^ 17)) None)
            [Js.Rejected (Js.ThrownError "Network error");
             Js.Resolved {| Host.return_data := Some "0x1" |}]))
  = 2%nat.
Proof.
  apply (transient_failures_recovered ExampleHost.toLocaleString ExampleWorld.simulator
           (ExampleWorld.transfer ExampleWorld.recipient (10 ^ 17)) None
           [Js.ThrownError "Network error"]
           {| Host.return_data := Some "0x1" |} []).
  vm_compute. lia.
Defined.

Lemma estimateSpend_offline_fallback_witness :
  TransactionSimulator.estimatedSpend
    (fst (fst (Host.run (OfflineWorld.refusing (Js.ThrownError "fetch failed"))
                 (TransactionSimulator.estimateSpend ExampleHost.toLocaleString
                    ExampleWorld.simulator
                    (ExampleWorld.transfer ExampleWorld.recipient ExampleHost.ETH)
                    ExampleWorld.payer) tt)))
  = ExampleHost.ETH + 21000 * 10 ^ 9.
Proof.
  destruct (estimateSpend_offline_fallback ExampleHost.toLocaleString
              (OfflineWorld.refusing (Js.ThrownError "fetch failed"))
              ExampleWorld.simulator
              (ExampleWorld.transfer ExampleWorld.recipient ExampleHost.ETH)
              ExampleWorld.payer tt tt tt
              (Js.ThrownError "fetch failed") (Js.ThrownError "fetch failed"))
    as (H & _); [reflexivity | reflexivity | reflexivity |].
  rewrite H. vm_compute. reflexivity.
Defined.

Lemma short_calldata_no_warnings_witness :
  TransactionFirewall.checkCalldata "0x" = [].
Proof.
  apply (short_calldata_no_warnings "0x"). vm_compute. lia.
Defined.

Lemma accepted_decision_sound_witness :
  exists est,
    TransactionFirewall.estimatedSpend
      (fst (fst (fst (Host.run ExampleWorld.healthy
                        (TransactionFirewall.check ExampleHost.toFixed4
                           ExampleHost.toLocaleString ExampleWorld.firewall
                           (ExampleWorld.transfer ExampleWorld.recipient (5 * 10 ^ 17)))
                        tt)))) = Some est
    /\ est <= 1 * ExampleHost.ETH.
Proof.
  destruct (accepted_decision_sound ExampleWorld.healthy ExampleHost.toFixed4
              ExampleHost.toLocaleString ExampleWorld.firewall
              (ExampleWorld.transfer ExampleWorld.recipient (5 * 10 ^ 17)) tt)
    as (_ & H & _); [vm_compute; reflexivity|].
  destruct H as (est & Hest & Hcap & _); [reflexivity|].
  exists est. split; [exact Hest | exact Hcap].
Defined.

Lemma rejection_has_reason_witness :
  exists m,
    TransactionFirewall.reason
      (fst (fst (fst (Host.run ExampleWorld.healthy
                        (TransactionFirewall.check ExampleHost.toFixed4
                           ExampleHost.toLocaleString ExampleWorld.firewall
                           (ExampleWorld.transfer ExampleWorld.recipient
                              (2 * ExampleHost.ETH))) tt)))) = Some m.
Proof.
  apply (rejection_has_reason ExampleWorld.healthy ExampleHost.toFixed4
           ExampleHost.toLocaleString ExampleWorld.firewall
           (ExampleWorld.transfer ExampleWorld.recipient (2 * ExampleHost.ETH)) tt).
  vm_compute. reflexivity.
Defined.

Lemma no_payer_limits_unenforced_witness :
  let fw := TransactionFirewall.constructor "2026-01-01" ExampleWorld.strict_config in
  let spent := SpendingLimits.recordSpend "2026-01-01" (10 * ExampleHost.ETH)
                 (TransactionFirewall.limits fw) in
  TransactionFirewall.allowed
    (fst (fst (fst (Host.run ExampleWorld.healthy
                      (TransactionFirewall.check ExampleHost.toFixed4
                         ExampleHost.toLocaleString
                         (TransactionFirewall.with_limits fw spent)
                         (ExampleWorld.transfer ExampleWorld.weth
                            (5 * ExampleHost.ETH))) tt))))
  = true.
Proof.
  intros fw spent.
  destruct (no_payer_limits_unenforced ExampleWorld.healthy ExampleHost.toFixed4
              ExampleHost.toLocaleString fw
              (ExampleWorld.transfer ExampleWorld.weth (5 * ExampleHost.ETH)) tt spent)
    as (H & _); [reflexivity|].
  rewrite H. vm_compute. reflexivity.
Defined.

Lemma no_simulation_no_call_witness :
  Host.call_count
    (snd (Host.run ExampleWorld.healthy
            (TransactionFirewall.check ExampleHost.toFixed4 ExampleHost.toLocaleString
               (TransactionFirewall.constructor "2026-01-01" ExampleWorld.strict_config)
               (ExampleWorld.transfer ExampleWorld.weth (10 ^ 17))) tt))
  = 0%nat.
Proof.
  apply (no_simulation_no_call ExampleWorld.healthy ExampleHost.toFixed4
           ExampleHost.toLocaleString
           (TransactionFirewall.constructor "2026-01-01" ExampleWorld.strict_config)
           (ExampleWorld.transfer ExampleWorld.weth (10 ^ 17)) tt).
  reflexivity.
Defined.

Lemma contract_creation_not_classified_witness :
  let fw := TransactionFirewall.constructor "2026-01-01" ExampleWorld.strict_config in
  let res := fst (fst (fst (Host.run ExampleWorld.healthy
                              (TransactionFirewall.check ExampleHost.toFixed4
                                 ExampleHost.toLocaleString fw OfflineWorld.deployment)
                              tt))) in
  TransactionFirewall.contractsChecked res = Some []
  /\ TransactionFirewall.allowed res = true.
Proof.
  intros fw res. subst res. split.
  - apply (contract_creation_not_classified ExampleWorld.healthy ExampleHost.toFixed4
             ExampleHost.toLocaleString fw OfflineWorld.deployment tt
             (TransactionFirewall.allowlist fw)).
    reflexivity.
  - vm_compute. reflexivity.
Defined.

Lemma blockContract_then_rejected_witness :
  snd (Host.run ExampleWorld.healthy
         (TransactionFirewall.check ExampleHost.toFixed4 ExampleHost.toLocaleString
            (TransactionFirewall.blockContract ExampleWorld.payer ExampleWorld.firewall)
            (ExampleWorld.transfer OfflineWorld.payer_lower (10 ^ 17))) tt)
  = [].
Proof.
  apply (blockContract_then_rejected ExampleWorld.healthy ExampleHost.toFixed4
           ExampleHost.toLocaleString ExampleWorld.firewall
           (ExampleWorld.transfer OfflineWorld.payer_lower (10 ^ 17))
           ExampleWorld.payer OfflineWorld.payer_lower tt);
    [reflexivity | discriminate | reflexivity].
Defined.

(** X28.  Blocking is idempotent and blind to case: blocking an address
    that is already blocked, in whatever spelling, leaves the classifier
    as it is, so the block list size that [getStatus] reports does not
    grow; blocking a new address makes it grow by one. *)
Theorem addToBlocklist_idempotent (a : ContractAllowlist.t) (addr : string) :
  (Js.toLowerCase addr ∈ ContractAllowlist.blocklist a ->
   ContractAllowlist.addToBlocklist addr a = a)
  /\ (Js.toLowerCase addr ∉ ContractAllowlist.blocklist a ->
      ContractAllowlist.blocklistSize
        (ContractAllowlist.getStatus (ContractAllowlist.addToBlocklist addr a))
      = S (ContractAllowlist.blocklistSize (ContractAllowlist.getStatus a))).
Proof.
  split.
  - intros Hin. destruct a as [al bl sys hon].
    unfold ContractAllowlist.addToBlocklist. cbn in *. f_equal.
    apply leibniz_equiv. set_solver.
  - intros Hnew. unfold ContractAllowlist.getStatus, ContractAllowlist.addToBlocklist.
    cbn [ContractAllowlist.blocklistSize ContractAllowlist.blocklist].
    rewrite size_union by set_solver. rewrite size_singleton. reflexivity.
Qed.

Lemma addToBlocklist_idempotent_witness :
  ContractAllowlist.addToBlocklist "0xBADC0DEBADC0DEBADC0DEBADC0DEBADC0DEBADC0"
    (TransactionFirewall.allowlist ExampleWorld.firewall)
  = TransactionFirewall.allowlist ExampleWorld.firewall
  /\ ContractAllowlist.blocklistSize
       (ContractAllowlist.getStatus
          (ContractAllowlist.addToBlocklist ExampleWorld.payer
             (TransactionFirewall.allowlist ExampleWorld.firewall)))
     = 3%nat.
Proof.
  destruct (addToBlocklist_idempotent
              (TransactionFirewall.allowlist ExampleWorld.firewall)
              "0xBADC0DEBADC0DEBADC0DEBADC0DEBADC0DEBADC0") as (H1 & _).
  destruct (addToBlocklist_idempotent
              (TransactionFirewall.allowlist ExampleWorld.firewall)
              ExampleWorld.payer) as (_ & H2).
  split.
  - apply H1. apply (bool_decide_eq_true_1 _). vm_compute. reflexivity.
  - rewrite H2; [vm_compute; reflexivity|].
    apply (bool_decide_eq_false_1 _). vm_compute. reflexivity.
Defined.

Lemma estimateSpend_given_gas_witness :
  TransactionSimulator.estimatedSpend
    (fst (fst (Host.run ExampleWorld.healthy
                 (TransactionSimulator.estimateSpend ExampleHost.toLocaleString
                    ExampleWorld.simulator
                    {| Host.to := Some ExampleWorld.recipient;
                       Host.data := None;
                       Host.value := Some ExampleHost.ETH;
                       Host.gas := Some 50000;
                       Host.from := Some ExampleWorld.payer |}
                    ExampleWorld.payer) tt)))
  = ExampleHost.ETH + 10 ^ 9 * 50000.
Proof.
  destruct (estimateSpend_given_gas ExampleHost.toLocaleString ExampleWorld.healthy
              ExampleWorld.simulator
              {| Host.to := Some ExampleWorld.recipient;
                 Host.data := None;
                 Host.value := Some ExampleHost.ETH;
                 Host.gas := Some 50000;
                 Host.from := Some ExampleWorld.payer |}
              ExampleWorld.payer tt) as (H & _).
  destruct (H 50000 eq_refl) as (_ & _ & Hest); [discriminate|].
  rewrite Hest. vm_compute. reflexivity.
Defined.
